(** * Roasters Cafe: identifier derivation, duplicate guard and stage chaining

    A shallow embedding of [src/main.py]: the three form handlers
    (Recebimiento, Trillado, Perfilado), the worksheet reads and appends they
    perform, and the Python operations they are written with.  Definitions
    come first, the theorems about them follow. *)

From Stdlib Require Import Bool Arith ZArith Lia List String Ascii.
From Stdlib Require Import Floats.SpecFloat.
Import ListNotations.

Open Scope list_scope.
Open Scope string_scope.

(** ** Python values and operations used by the handlers *)

Module Py.

(** Exceptions the handlers' expressions can raise. *)
Inductive exn : Type :=
| IndexError
| ZeroDivisionError
| WorksheetNotFound.

(** The result of evaluating a Python expression: a value or a raised
    exception. *)
Inductive outcome (A : Type) : Type :=
| Ok (a : A)
| Raise (e : exn).

Arguments Ok {A} a.
Arguments Raise {A} e.

Definition bind {A B : Type} (m : outcome A) (k : A -> outcome B) : outcome B :=
  match m with
  | Ok a => k a
  | Raise e => Raise e
  end.

(** A list comprehension [[f(r) for r in l]]: elements are evaluated left to
    right and the first exception aborts the whole comprehension. *)
Fixpoint comprehension {A B : Type} (f : A -> outcome B) (l : list A)
  : outcome (list B) :=
  match l with
  | [] => Ok []
  | a :: l' =>
      bind (f a) (fun b =>
      bind (comprehension f l') (fun bs => Ok (b :: bs)))
  end.

(** *** Strings.  A [str] is modelled by its UTF-8 encoding: a [string] holds
    the bytes, and a character is a lead byte together with the continuation
    bytes that follow it.  Equality, concatenation and the search for a
    substring on the encodings are those on the characters. *)

(** [s.startswith(p)] *)
Fixpoint startswith (p s : string) : bool :=
  match p, s with
  | EmptyString, _ => true
  | String a p', String b s' => Ascii.eqb a b && startswith p' s'
  | String _ _, EmptyString => false
  end.

(** [old.join] of the characters of [s] surrounded by [new]: what
    [s.replace("", new)] returns. *)
Fixpoint interleave (new s : string) : string :=
  match s with
  | EmptyString => new
  | String c s' => new ++ String c (interleave new s')
  end.

(** Left-to-right scan of [s.replace(old, new)] for a non-empty [old]:
    [skip] counts the characters of a matched occurrence still to drop. *)
Fixpoint replace_scan (old new : string) (skip : nat) (s : string) : string :=
  match s with
  | EmptyString => EmptyString
  | String c s' =>
      match skip with
      | S k => replace_scan old new k s'
      | O =>
          if startswith old s
          then new ++ replace_scan old new (String.length old - 1) s'
          else String c (replace_scan old new 0 s')
      end
  end.

(** [s.replace(old, new)] *)
Definition replace (old new s : string) : string :=
  match old with
  | EmptyString => interleave new s
  | String _ _ => replace_scan old new 0 s
  end.

(** A UTF-8 continuation byte, [10xxxxxx]. *)
Definition is_continuation (b : ascii) : bool :=
  match b with
  | Ascii _ _ _ _ _ _ b6 b7 => b7 && negb b6
  end.

(** The string goes on inside a character. *)
Definition continues (s : string) : bool :=
  match s with
  | String b _ => is_continuation b
  | EmptyString => false
  end.

(** The characters of a string, in order: a byte opens a character unless
    it is a continuation byte, which belongs to the character before it. *)
Fixpoint chars (s : string) : list string :=
  match s with
  | EmptyString => []
  | String b s' =>
      match chars s' with
      | c :: cs =>
          if continues c then String b c :: cs
          else String b EmptyString :: c :: cs
      | [] => [String b EmptyString]
      end
  end.

(** The string made of a list of characters. *)
Fixpoint join (l : list string) : string :=
  match l with
  | [] => EmptyString
  | c :: l' => c ++ join l'
  end.

(** [s[:n]] for a non-negative [n]: the first [n] characters; it never
    raises, a shorter string is returned whole. *)
Definition slice_to (n : nat) (s : string) : string :=
  join (firstn n (chars s)).

(** [c.upper()] of an ASCII character. *)
Definition upper_char (c : ascii) : ascii :=
  let n := nat_of_ascii c in
  if (97 <=? n)%nat && (n <=? 122)%nat then ascii_of_nat (n - 32) else c.

(** The characters beyond ASCII that [str.upper] changes, each with what it
    becomes (one character or several): the full uppercase mapping of the
    Unicode character database, version 14.0 as CPython 3.11 carries it. *)
Definition uppercase_mapping : list (string * string) :=
  [ ("µ", "Μ"); ("ß", "SS"); ("à", "À"); ("á", "Á"); ("â", "Â");
    ("ã", "Ã"); ("ä", "Ä"); ("å", "Å"); ("æ", "Æ"); ("ç", "Ç");
    ("è", "È"); ("é", "É"); ("ê", "Ê"); ("ë", "Ë"); ("ì", "Ì");
    ("í", "Í"); ("î", "Î"); ("ï", "Ï"); ("ð", "Ð"); ("ñ", "Ñ");
    ("ò", "Ò"); ("ó", "Ó"); ("ô", "Ô"); ("õ", "Õ"); ("ö", "Ö");
    ("ø", "Ø"); ("ù", "Ù"); ("ú", "Ú"); ("û", "Û"); ("ü", "Ü");
    ("ý", "Ý"); ("þ", "Þ"); ("ÿ", "Ÿ"); ("ā", "Ā"); ("ă", "Ă");
    ("ą", "Ą"); ("ć", "Ć"); ("ĉ", "Ĉ"); ("ċ", "Ċ"); ("č", "Č");
    ("ď", "Ď"); ("đ", "Đ"); ("ē", "Ē"); ("ĕ", "Ĕ"); ("ė", "Ė");
    ("ę", "Ę"); ("ě", "Ě"); ("ĝ", "Ĝ"); ("ğ", "Ğ"); ("ġ", "Ġ");
    ("ģ", "Ģ"); ("ĥ", "Ĥ"); ("ħ", "Ħ"); ("ĩ", "Ĩ"); ("ī", "Ī");
    ("ĭ", "Ĭ"); ("į", "Į"); ("ı", "I"); ("ĳ", "Ĳ"); ("ĵ", "Ĵ");
    ("ķ", "Ķ"); ("ĺ", "Ĺ"); ("ļ", "Ļ"); ("ľ", "Ľ"); ("ŀ", "Ŀ");
    ("ł", "Ł"); ("ń", "Ń"); ("ņ", "Ņ"); ("ň", "Ň"); ("ŉ", "ʼN");
    ("ŋ", "Ŋ"); ("ō", "Ō"); ("ŏ", "Ŏ"); ("ő", "Ő"); ("œ", "Œ");
    ("ŕ", "Ŕ"); ("ŗ", "Ŗ"); ("ř", "Ř"); ("ś", "Ś"); ("ŝ", "Ŝ");
    ("ş", "Ş"); ("š", "Š"); ("ţ", "Ţ"); ("ť", "Ť"); ("ŧ", "Ŧ");
    ("ũ", "Ũ"); ("ū", "Ū"); ("ŭ", "Ŭ"); ("ů", "Ů"); ("ű", "Ű");
    ("ų", "Ų"); ("ŵ", "Ŵ"); ("ŷ", "Ŷ"); ("ź", "Ź"); ("ż", "Ż");
    ("ž", "Ž"); ("ſ", "S"); ("ƀ", "Ƀ"); ("ƃ", "Ƃ"); ("ƅ", "Ƅ");
    ("ƈ", "Ƈ"); ("ƌ", "Ƌ"); ("ƒ", "Ƒ"); ("ƕ", "Ƕ"); ("ƙ", "Ƙ");
    ("ƚ", "Ƚ"); ("ƞ", "Ƞ"); ("ơ", "Ơ"); ("ƣ", "Ƣ"); ("ƥ", "Ƥ");
    ("ƨ", "Ƨ"); ("ƭ", "Ƭ"); ("ư", "Ư"); ("ƴ", "Ƴ"); ("ƶ", "Ƶ");
    ("ƹ", "Ƹ"); ("ƽ", "Ƽ"); ("ƿ", "Ƿ"); ("ǅ", "Ǆ"); ("ǆ", "Ǆ");
    ("ǈ", "Ǉ"); ("ǉ", "Ǉ"); ("ǋ", "Ǌ"); ("ǌ", "Ǌ"); ("ǎ", "Ǎ");
    ("ǐ", "Ǐ"); ("ǒ", "Ǒ"); ("ǔ", "Ǔ"); ("ǖ", "Ǖ"); ("ǘ", "Ǘ");
    ("ǚ", "Ǚ"); ("ǜ", "Ǜ"); ("ǝ", "Ǝ"); ("ǟ", "Ǟ"); ("ǡ", "Ǡ");
    ("ǣ", "Ǣ"); ("ǥ", "Ǥ"); ("ǧ", "Ǧ"); ("ǩ", "Ǩ"); ("ǫ", "Ǫ");
    ("ǭ", "Ǭ"); ("ǯ", "Ǯ"); ("ǰ", "J̌"); ("ǲ", "Ǳ"); ("ǳ", "Ǳ");
    ("ǵ", "Ǵ"); ("ǹ", "Ǹ"); ("ǻ", "Ǻ"); ("ǽ", "Ǽ"); ("ǿ", "Ǿ");
    ("ȁ", "Ȁ"); ("ȃ", "Ȃ"); ("ȅ", "Ȅ"); ("ȇ", "Ȇ"); ("ȉ", "Ȉ");
    ("ȋ", "Ȋ"); ("ȍ", "Ȍ"); ("ȏ", "Ȏ"); ("ȑ", "Ȑ"); ("ȓ", "Ȓ");
    ("ȕ", "Ȕ"); ("ȗ", "Ȗ"); ("ș", "Ș"); ("ț", "Ț"); ("ȝ", "Ȝ");
    ("ȟ", "Ȟ"); ("ȣ", "Ȣ"); ("ȥ", "Ȥ"); ("ȧ", "Ȧ"); ("ȩ", "Ȩ");
    ("ȫ", "Ȫ"); ("ȭ", "Ȭ"); ("ȯ", "Ȯ"); ("ȱ", "Ȱ"); ("ȳ", "Ȳ");
    ("ȼ", "Ȼ"); ("ȿ", "Ȿ"); ("ɀ", "Ɀ"); ("ɂ", "Ɂ"); ("ɇ", "Ɇ");
    ("ɉ", "Ɉ"); ("ɋ", "Ɋ"); ("ɍ", "Ɍ"); ("ɏ", "Ɏ"); ("ɐ", "Ɐ");
    ("ɑ", "Ɑ"); ("ɒ", "Ɒ"); ("ɓ", "Ɓ"); ("ɔ", "Ɔ"); ("ɖ", "Ɖ");
    ("ɗ", "Ɗ"); ("ə", "Ə"); ("ɛ", "Ɛ"); ("ɜ", "Ɜ"); ("ɠ", "Ɠ");
    ("ɡ", "Ɡ"); ("ɣ", "Ɣ"); ("ɥ", "Ɥ"); ("ɦ", "Ɦ"); ("ɨ", "Ɨ");
    ("ɩ", "Ɩ"); ("ɪ", "Ɪ"); ("ɫ", "Ɫ"); ("ɬ", "Ɬ"); ("ɯ", "Ɯ");
    ("ɱ", "Ɱ"); ("ɲ", "Ɲ"); ("ɵ", "Ɵ"); ("ɽ", "Ɽ"); ("ʀ", "Ʀ");
    ("ʂ", "Ʂ"); ("ʃ", "Ʃ"); ("ʇ", "Ʇ"); ("ʈ", "Ʈ"); ("ʉ", "Ʉ");
    ("ʊ", "Ʊ"); ("ʋ", "Ʋ"); ("ʌ", "Ʌ"); ("ʒ", "Ʒ"); ("ʝ", "Ʝ");
    ("ʞ", "Ʞ"); ("ͅ", "Ι"); ("ͱ", "Ͱ"); ("ͳ", "Ͳ"); ("ͷ", "Ͷ");
    ("ͻ", "Ͻ"); ("ͼ", "Ͼ"); ("ͽ", "Ͽ"); ("ΐ", "Ϊ́"); ("ά", "Ά");
    ("έ", "Έ"); ("ή", "Ή"); ("ί", "Ί"); ("ΰ", "Ϋ́"); ("α", "Α");
    ("β", "Β"); ("γ", "Γ"); ("δ", "Δ"); ("ε", "Ε"); ("ζ", "Ζ");
    ("η", "Η"); ("θ", "Θ"); ("ι", "Ι"); ("κ", "Κ"); ("λ", "Λ");
    ("μ", "Μ"); ("ν", "Ν"); ("ξ", "Ξ"); ("ο", "Ο"); ("π", "Π");
    ("ρ", "Ρ"); ("ς", "Σ"); ("σ", "Σ"); ("τ", "Τ"); ("υ", "Υ");
    ("φ", "Φ"); ("χ", "Χ"); ("ψ", "Ψ"); ("ω", "Ω"); ("ϊ", "Ϊ");
    ("ϋ", "Ϋ"); ("ό", "Ό"); ("ύ", "Ύ"); ("ώ", "Ώ"); ("ϐ", "Β");
    ("ϑ", "Θ"); ("ϕ", "Φ"); ("ϖ", "Π"); ("ϗ", "Ϗ"); ("ϙ", "Ϙ");
    ("ϛ", "Ϛ"); ("ϝ", "Ϝ"); ("ϟ", "Ϟ"); ("ϡ", "Ϡ"); ("ϣ", "Ϣ");
    ("ϥ", "Ϥ"); ("ϧ", "Ϧ"); ("ϩ", "Ϩ"); ("ϫ", "Ϫ"); ("ϭ", "Ϭ");
    ("ϯ", "Ϯ"); ("ϰ", "Κ"); ("ϱ", "Ρ"); ("ϲ", "Ϲ"); ("ϳ", "Ϳ");
    ("ϵ", "Ε"); ("ϸ", "Ϸ"); ("ϻ", "Ϻ"); ("а", "А"); ("б", "Б");
    ("в", "В"); ("г", "Г"); ("д", "Д"); ("е", "Е"); ("ж", "Ж");
    ("з", "З"); ("и", "И"); ("й", "Й"); ("к", "К"); ("л", "Л");
    ("м", "М"); ("н", "Н"); ("о", "О"); ("п", "П"); ("р", "Р");
    ("с", "С"); ("т", "Т"); ("у", "У"); ("ф", "Ф"); ("х", "Х");
    ("ц", "Ц"); ("ч", "Ч"); ("ш", "Ш"); ("щ", "Щ"); ("ъ", "Ъ");
    ("ы", "Ы"); ("ь", "Ь"); ("э", "Э"); ("ю", "Ю"); ("я", "Я");
    ("ѐ", "Ѐ"); ("ё", "Ё"); ("ђ", "Ђ"); ("ѓ", "Ѓ"); ("є", "Є");
    ("ѕ", "Ѕ"); ("і", "І"); ("ї", "Ї"); ("ј", "Ј"); ("љ", "Љ");
    ("њ", "Њ"); ("ћ", "Ћ"); ("ќ", "Ќ"); ("ѝ", "Ѝ"); ("ў", "Ў");
    ("џ", "Џ"); ("ѡ", "Ѡ"); ("ѣ", "Ѣ"); ("ѥ", "Ѥ"); ("ѧ", "Ѧ");
    ("ѩ", "Ѩ"); ("ѫ", "Ѫ"); ("ѭ", "Ѭ"); ("ѯ", "Ѯ"); ("ѱ", "Ѱ");
    ("ѳ", "Ѳ"); ("ѵ", "Ѵ"); ("ѷ", "Ѷ"); ("ѹ", "Ѹ"); ("ѻ", "Ѻ");
    ("ѽ", "Ѽ"); ("ѿ", "Ѿ"); ("ҁ", "Ҁ"); ("ҋ", "Ҋ"); ("ҍ", "Ҍ");
    ("ҏ", "Ҏ"); ("ґ", "Ґ"); ("ғ", "Ғ"); ("ҕ", "Ҕ"); ("җ", "Җ");
    ("ҙ", "Ҙ"); ("қ", "Қ"); ("ҝ", "Ҝ"); ("ҟ", "Ҟ"); ("ҡ", "Ҡ");
    ("ң", "Ң"); ("ҥ", "Ҥ"); ("ҧ", "Ҧ"); ("ҩ", "Ҩ"); ("ҫ", "Ҫ");
    ("ҭ", "Ҭ"); ("ү", "Ү"); ("ұ", "Ұ"); ("ҳ", "Ҳ"); ("ҵ", "Ҵ");
    ("ҷ", "Ҷ"); ("ҹ", "Ҹ"); ("һ", "Һ"); ("ҽ", "Ҽ"); ("ҿ", "Ҿ");
    ("ӂ", "Ӂ"); ("ӄ", "Ӄ"); ("ӆ", "Ӆ"); ("ӈ", "Ӈ"); ("ӊ", "Ӊ");
    ("ӌ", "Ӌ"); ("ӎ", "Ӎ"); ("ӏ", "Ӏ"); ("ӑ", "Ӑ"); ("ӓ", "Ӓ");
    ("ӕ", "Ӕ"); ("ӗ", "Ӗ"); ("ә", "Ә"); ("ӛ", "Ӛ"); ("ӝ", "Ӝ");
    ("ӟ", "Ӟ"); ("ӡ", "Ӡ"); ("ӣ", "Ӣ"); ("ӥ", "Ӥ"); ("ӧ", "Ӧ");
    ("ө", "Ө"); ("ӫ", "Ӫ"); ("ӭ", "Ӭ"); ("ӯ", "Ӯ"); ("ӱ", "Ӱ");
    ("ӳ", "Ӳ"); ("ӵ", "Ӵ"); ("ӷ", "Ӷ"); ("ӹ", "Ӹ"); ("ӻ", "Ӻ");
    ("ӽ", "Ӽ"); ("ӿ", "Ӿ"); ("ԁ", "Ԁ"); ("ԃ", "Ԃ"); ("ԅ", "Ԅ");
    ("ԇ", "Ԇ"); ("ԉ", "Ԉ"); ("ԋ", "Ԋ"); ("ԍ", "Ԍ"); ("ԏ", "Ԏ");
    ("ԑ", "Ԑ"); ("ԓ", "Ԓ"); ("ԕ", "Ԕ"); ("ԗ", "Ԗ"); ("ԙ", "Ԙ");
    ("ԛ", "Ԛ"); ("ԝ", "Ԝ"); ("ԟ", "Ԟ"); ("ԡ", "Ԡ"); ("ԣ", "Ԣ");
    ("ԥ", "Ԥ"); ("ԧ", "Ԧ"); ("ԩ", "Ԩ"); ("ԫ", "Ԫ"); ("ԭ", "Ԭ");
    ("ԯ", "Ԯ"); ("ա", "Ա"); ("բ", "Բ"); ("գ", "Գ"); ("դ", "Դ");
    ("ե", "Ե"); ("զ", "Զ"); ("է", "Է"); ("ը", "Ը"); ("թ", "Թ");
    ("ժ", "Ժ"); ("ի", "Ի"); ("լ", "Լ"); ("խ", "Խ"); ("ծ", "Ծ");
    ("կ", "Կ"); ("հ", "Հ"); ("ձ", "Ձ"); ("ղ", "Ղ"); ("ճ", "Ճ");
    ("մ", "Մ"); ("յ", "Յ"); ("ն", "Ն"); ("շ", "Շ"); ("ո", "Ո");
    ("չ", "Չ"); ("պ", "Պ"); ("ջ", "Ջ"); ("ռ", "Ռ"); ("ս", "Ս");
    ("վ", "Վ"); ("տ", "Տ"); ("ր", "Ր"); ("ց", "Ց"); ("ւ", "Ւ");
    ("փ", "Փ"); ("ք", "Ք"); ("օ", "Օ"); ("ֆ", "Ֆ"); ("և", "ԵՒ");
    ("ა", "Ა"); ("ბ", "Ბ"); ("გ", "Გ"); ("დ", "Დ"); ("ე", "Ე");
    ("ვ", "Ვ"); ("ზ", "Ზ"); ("თ", "Თ"); ("ი", "Ი"); ("კ", "Კ");
    ("ლ", "Ლ"); ("მ", "Მ"); ("ნ", "Ნ"); ("ო", "Ო"); ("პ", "Პ");
    ("ჟ", "Ჟ"); ("რ", "Რ"); ("ს", "Ს"); ("ტ", "Ტ"); ("უ", "Უ");
    ("ფ", "Ფ"); ("ქ", "Ქ"); ("ღ", "Ღ"); ("ყ", "Ყ"); ("შ", "Შ");
    ("ჩ", "Ჩ"); ("ც", "Ც"); ("ძ", "Ძ"); ("წ", "Წ"); ("ჭ", "Ჭ");
    ("ხ", "Ხ"); ("ჯ", "Ჯ"); ("ჰ", "Ჰ"); ("ჱ", "Ჱ"); ("ჲ", "Ჲ");
    ("ჳ", "Ჳ"); ("ჴ", "Ჴ"); ("ჵ", "Ჵ"); ("ჶ", "Ჶ"); ("ჷ", "Ჷ");
    ("ჸ", "Ჸ"); ("ჹ", "Ჹ"); ("ჺ", "Ჺ"); ("ჽ", "Ჽ"); ("ჾ", "Ჾ");
    ("ჿ", "Ჿ"); ("ᏸ", "Ᏸ"); ("ᏹ", "Ᏹ"); ("ᏺ", "Ᏺ"); ("ᏻ", "Ᏻ");
    ("ᏼ", "Ᏼ"); ("ᏽ", "Ᏽ"); ("ᲀ", "В"); ("ᲁ", "Д"); ("ᲂ", "О");
    ("ᲃ", "С"); ("ᲄ", "Т"); ("ᲅ", "Т"); ("ᲆ", "Ъ"); ("ᲇ", "Ѣ");
    ("ᲈ", "Ꙋ"); ("ᵹ", "Ᵹ"); ("ᵽ", "Ᵽ"); ("ᶎ", "Ᶎ"); ("ḁ", "Ḁ");
    ("ḃ", "Ḃ"); ("ḅ", "Ḅ"); ("ḇ", "Ḇ"); ("ḉ", "Ḉ"); ("ḋ", "Ḋ");
    ("ḍ", "Ḍ"); ("ḏ", "Ḏ"); ("ḑ", "Ḑ"); ("ḓ", "Ḓ"); ("ḕ", "Ḕ");
    ("ḗ", "Ḗ"); ("ḙ", "Ḙ"); ("ḛ", "Ḛ"); ("ḝ", "Ḝ"); ("ḟ", "Ḟ");
    ("ḡ", "Ḡ"); ("ḣ", "Ḣ"); ("ḥ", "Ḥ"); ("ḧ", "Ḧ"); ("ḩ", "Ḩ");
    ("ḫ", "Ḫ"); ("ḭ", "Ḭ"); ("ḯ", "Ḯ"); ("ḱ", "Ḱ"); ("ḳ", "Ḳ");
    ("ḵ", "Ḵ"); ("ḷ", "Ḷ"); ("ḹ", "Ḹ"); ("ḻ", "Ḻ"); ("ḽ", "Ḽ");
    ("ḿ", "Ḿ"); ("ṁ", "Ṁ"); ("ṃ", "Ṃ"); ("ṅ", "Ṅ"); ("ṇ", "Ṇ");
    ("ṉ", "Ṉ"); ("ṋ", "Ṋ"); ("ṍ", "Ṍ"); ("ṏ", "Ṏ"); ("ṑ", "Ṑ");
    ("ṓ", "Ṓ"); ("ṕ", "Ṕ"); ("ṗ", "Ṗ"); ("ṙ", "Ṙ"); ("ṛ", "Ṛ");
    ("ṝ", "Ṝ"); ("ṟ", "Ṟ"); ("ṡ", "Ṡ"); ("ṣ", "Ṣ"); ("ṥ", "Ṥ");
    ("ṧ", "Ṧ"); ("ṩ", "Ṩ"); ("ṫ", "Ṫ"); ("ṭ", "Ṭ"); ("ṯ", "Ṯ");
    ("ṱ", "Ṱ"); ("ṳ", "Ṳ"); ("ṵ", "Ṵ"); ("ṷ", "Ṷ"); ("ṹ", "Ṹ");
    ("ṻ", "Ṻ"); ("ṽ", "Ṽ"); ("ṿ", "Ṿ"); ("ẁ", "Ẁ"); ("ẃ", "Ẃ");
    ("ẅ", "Ẅ"); ("ẇ", "Ẇ"); ("ẉ", "Ẉ"); ("ẋ", "Ẋ"); ("ẍ", "Ẍ");
    ("ẏ", "Ẏ"); ("ẑ", "Ẑ"); ("ẓ", "Ẓ"); ("ẕ", "Ẕ"); ("ẖ", "H̱");
    ("ẗ", "T̈"); ("ẘ", "W̊"); ("ẙ", "Y̊"); ("ẚ", "Aʾ"); ("ẛ", "Ṡ");
    ("ạ", "Ạ"); ("ả", "Ả"); ("ấ", "Ấ"); ("ầ", "Ầ"); ("ẩ", "Ẩ");
    ("ẫ", "Ẫ"); ("ậ", "Ậ"); ("ắ", "Ắ"); ("ằ", "Ằ"); ("ẳ", "Ẳ");
    ("ẵ", "Ẵ"); ("ặ", "Ặ"); ("ẹ", "Ẹ"); ("ẻ", "Ẻ"); ("ẽ", "Ẽ");
    ("ế", "Ế"); ("ề", "Ề"); ("ể", "Ể"); ("ễ", "Ễ"); ("ệ", "Ệ");
    ("ỉ", "Ỉ"); ("ị", "Ị"); ("ọ", "Ọ"); ("ỏ", "Ỏ"); ("ố", "Ố");
    ("ồ", "Ồ"); ("ổ", "Ổ"); ("ỗ", "Ỗ"); ("ộ", "Ộ"); ("ớ", "Ớ");
    ("ờ", "Ờ"); ("ở", "Ở"); ("ỡ", "Ỡ"); ("ợ", "Ợ"); ("ụ", "Ụ");
    ("ủ", "Ủ"); ("ứ", "Ứ"); ("ừ", "Ừ"); ("ử", "Ử"); ("ữ", "Ữ");
    ("ự", "Ự"); ("ỳ", "Ỳ"); ("ỵ", "Ỵ"); ("ỷ", "Ỷ"); ("ỹ", "Ỹ");
    ("ỻ", "Ỻ"); ("ỽ", "Ỽ"); ("ỿ", "Ỿ"); ("ἀ", "Ἀ"); ("ἁ", "Ἁ");
    ("ἂ", "Ἂ"); ("ἃ", "Ἃ"); ("ἄ", "Ἄ"); ("ἅ", "Ἅ"); ("ἆ", "Ἆ");
    ("ἇ", "Ἇ"); ("ἐ", "Ἐ"); ("ἑ", "Ἑ"); ("ἒ", "Ἒ"); ("ἓ", "Ἓ");
    ("ἔ", "Ἔ"); ("ἕ", "Ἕ"); ("ἠ", "Ἠ"); ("ἡ", "Ἡ"); ("ἢ", "Ἢ");
    ("ἣ", "Ἣ"); ("ἤ", "Ἤ"); ("ἥ", "Ἥ"); ("ἦ", "Ἦ"); ("ἧ", "Ἧ");
    ("ἰ", "Ἰ"); ("ἱ", "Ἱ"); ("ἲ", "Ἲ"); ("ἳ", "Ἳ"); ("ἴ", "Ἴ");
    ("ἵ", "Ἵ"); ("ἶ", "Ἶ"); ("ἷ", "Ἷ"); ("ὀ", "Ὀ"); ("ὁ", "Ὁ");
    ("ὂ", "Ὂ"); ("ὃ", "Ὃ"); ("ὄ", "Ὄ"); ("ὅ", "Ὅ"); ("ὐ", "Υ̓");
    ("ὑ", "Ὑ"); ("ὒ", "Υ̓̀"); ("ὓ", "Ὓ"); ("ὔ", "Υ̓́"); ("ὕ", "Ὕ");
    ("ὖ", "Υ̓͂"); ("ὗ", "Ὗ"); ("ὠ", "Ὠ"); ("ὡ", "Ὡ"); ("ὢ", "Ὢ");
    ("ὣ", "Ὣ"); ("ὤ", "Ὤ"); ("ὥ", "Ὥ"); ("ὦ", "Ὦ"); ("ὧ", "Ὧ");
    ("ὰ", "Ὰ"); ("ά", "Ά"); ("ὲ", "Ὲ"); ("έ", "Έ"); ("ὴ", "Ὴ");
    ("ή", "Ή"); ("ὶ", "Ὶ"); ("ί", "Ί"); ("ὸ", "Ὸ"); ("ό", "Ό");
    ("ὺ", "Ὺ"); ("ύ", "Ύ"); ("ὼ", "Ὼ"); ("ώ", "Ώ"); ("ᾀ", "ἈΙ");
    ("ᾁ", "ἉΙ"); ("ᾂ", "ἊΙ"); ("ᾃ", "ἋΙ"); ("ᾄ", "ἌΙ"); ("ᾅ", "ἍΙ");
    ("ᾆ", "ἎΙ"); ("ᾇ", "ἏΙ"); ("ᾈ", "ἈΙ"); ("ᾉ", "ἉΙ"); ("ᾊ", "ἊΙ");
    ("ᾋ", "ἋΙ"); ("ᾌ", "ἌΙ"); ("ᾍ", "ἍΙ"); ("ᾎ", "ἎΙ"); ("ᾏ", "ἏΙ");
    ("ᾐ", "ἨΙ"); ("ᾑ", "ἩΙ"); ("ᾒ", "ἪΙ"); ("ᾓ", "ἫΙ"); ("ᾔ", "ἬΙ");
    ("ᾕ", "ἭΙ"); ("ᾖ", "ἮΙ"); ("ᾗ", "ἯΙ"); ("ᾘ", "ἨΙ"); ("ᾙ", "ἩΙ");
    ("ᾚ", "ἪΙ"); ("ᾛ", "ἫΙ"); ("ᾜ", "ἬΙ"); ("ᾝ", "ἭΙ"); ("ᾞ", "ἮΙ");
    ("ᾟ", "ἯΙ"); ("ᾠ", "ὨΙ"); ("ᾡ", "ὩΙ"); ("ᾢ", "ὪΙ"); ("ᾣ", "ὫΙ");
    ("ᾤ", "ὬΙ"); ("ᾥ", "ὭΙ"); ("ᾦ", "ὮΙ"); ("ᾧ", "ὯΙ"); ("ᾨ", "ὨΙ");
    ("ᾩ", "ὩΙ"); ("ᾪ", "ὪΙ"); ("ᾫ", "ὫΙ"); ("ᾬ", "ὬΙ"); ("ᾭ", "ὭΙ");
    ("ᾮ", "ὮΙ"); ("ᾯ", "ὯΙ"); ("ᾰ", "Ᾰ"); ("ᾱ", "Ᾱ"); ("ᾲ", "ᾺΙ");
    ("ᾳ", "ΑΙ"); ("ᾴ", "ΆΙ"); ("ᾶ", "Α͂"); ("ᾷ", "Α͂Ι"); ("ᾼ", "ΑΙ");
    ("ι", "Ι"); ("ῂ", "ῊΙ"); ("ῃ", "ΗΙ"); ("ῄ", "ΉΙ"); ("ῆ", "Η͂");
    ("ῇ", "Η͂Ι"); ("ῌ", "ΗΙ"); ("ῐ", "Ῐ"); ("ῑ", "Ῑ"); ("ῒ", "Ϊ̀");
    ("ΐ", "Ϊ́"); ("ῖ", "Ι͂"); ("ῗ", "Ϊ͂"); ("ῠ", "Ῠ"); ("ῡ", "Ῡ");
    ("ῢ", "Ϋ̀"); ("ΰ", "Ϋ́"); ("ῤ", "Ρ̓"); ("ῥ", "Ῥ"); ("ῦ", "Υ͂");
    ("ῧ", "Ϋ͂"); ("ῲ", "ῺΙ"); ("ῳ", "ΩΙ"); ("ῴ", "ΏΙ"); ("ῶ", "Ω͂");
    ("ῷ", "Ω͂Ι"); ("ῼ", "ΩΙ"); ("ⅎ", "Ⅎ"); ("ⅰ", "Ⅰ"); ("ⅱ", "Ⅱ");
    ("ⅲ", "Ⅲ"); ("ⅳ", "Ⅳ"); ("ⅴ", "Ⅴ"); ("ⅵ", "Ⅵ"); ("ⅶ", "Ⅶ");
    ("ⅷ", "Ⅷ"); ("ⅸ", "Ⅸ"); ("ⅹ", "Ⅹ"); ("ⅺ", "Ⅺ"); ("ⅻ", "Ⅻ");
    ("ⅼ", "Ⅼ"); ("ⅽ", "Ⅽ"); ("ⅾ", "Ⅾ"); ("ⅿ", "Ⅿ"); ("ↄ", "Ↄ");
    ("ⓐ", "Ⓐ"); ("ⓑ", "Ⓑ"); ("ⓒ", "Ⓒ"); ("ⓓ", "Ⓓ"); ("ⓔ", "Ⓔ");
    ("ⓕ", "Ⓕ"); ("ⓖ", "Ⓖ"); ("ⓗ", "Ⓗ"); ("ⓘ", "Ⓘ"); ("ⓙ", "Ⓙ");
    ("ⓚ", "Ⓚ"); ("ⓛ", "Ⓛ"); ("ⓜ", "Ⓜ"); ("ⓝ", "Ⓝ"); ("ⓞ", "Ⓞ");
    ("ⓟ", "Ⓟ"); ("ⓠ", "Ⓠ"); ("ⓡ", "Ⓡ"); ("ⓢ", "Ⓢ"); ("ⓣ", "Ⓣ");
    ("ⓤ", "Ⓤ"); ("ⓥ", "Ⓥ"); ("ⓦ", "Ⓦ"); ("ⓧ", "Ⓧ"); ("ⓨ", "Ⓨ");
    ("ⓩ", "Ⓩ"); ("ⰰ", "Ⰰ"); ("ⰱ", "Ⰱ"); ("ⰲ", "Ⰲ"); ("ⰳ", "Ⰳ");
    ("ⰴ", "Ⰴ"); ("ⰵ", "Ⰵ"); ("ⰶ", "Ⰶ"); ("ⰷ", "Ⰷ"); ("ⰸ", "Ⰸ");
    ("ⰹ", "Ⰹ"); ("ⰺ", "Ⰺ"); ("ⰻ", "Ⰻ"); ("ⰼ", "Ⰼ"); ("ⰽ", "Ⰽ");
    ("ⰾ", "Ⰾ"); ("ⰿ", "Ⰿ"); ("ⱀ", "Ⱀ"); ("ⱁ", "Ⱁ"); ("ⱂ", "Ⱂ");
    ("ⱃ", "Ⱃ"); ("ⱄ", "Ⱄ"); ("ⱅ", "Ⱅ"); ("ⱆ", "Ⱆ"); ("ⱇ", "Ⱇ");
    ("ⱈ", "Ⱈ"); ("ⱉ", "Ⱉ"); ("ⱊ", "Ⱊ"); ("ⱋ", "Ⱋ"); ("ⱌ", "Ⱌ");
    ("ⱍ", "Ⱍ"); ("ⱎ", "Ⱎ"); ("ⱏ", "Ⱏ"); ("ⱐ", "Ⱐ"); ("ⱑ", "Ⱑ");
    ("ⱒ", "Ⱒ"); ("ⱓ", "Ⱓ"); ("ⱔ", "Ⱔ"); ("ⱕ", "Ⱕ"); ("ⱖ", "Ⱖ");
    ("ⱗ", "Ⱗ"); ("ⱘ", "Ⱘ"); ("ⱙ", "Ⱙ"); ("ⱚ", "Ⱚ"); ("ⱛ", "Ⱛ");
    ("ⱜ", "Ⱜ"); ("ⱝ", "Ⱝ"); ("ⱞ", "Ⱞ"); ("ⱟ", "Ⱟ"); ("ⱡ", "Ⱡ");
    ("ⱥ", "Ⱥ"); ("ⱦ", "Ⱦ"); ("ⱨ", "Ⱨ"); ("ⱪ", "Ⱪ"); ("ⱬ", "Ⱬ");
    ("ⱳ", "Ⱳ"); ("ⱶ", "Ⱶ"); ("ⲁ", "Ⲁ"); ("ⲃ", "Ⲃ"); ("ⲅ", "Ⲅ");
    ("ⲇ", "Ⲇ"); ("ⲉ", "Ⲉ"); ("ⲋ", "Ⲋ"); ("ⲍ", "Ⲍ"); ("ⲏ", "Ⲏ");
    ("ⲑ", "Ⲑ"); ("ⲓ", "Ⲓ"); ("ⲕ", "Ⲕ"); ("ⲗ", "Ⲗ"); ("ⲙ", "Ⲙ");
    ("ⲛ", "Ⲛ"); ("ⲝ", "Ⲝ"); ("ⲟ", "Ⲟ"); ("ⲡ", "Ⲡ"); ("ⲣ", "Ⲣ");
    ("ⲥ", "Ⲥ"); ("ⲧ", "Ⲧ"); ("ⲩ", "Ⲩ"); ("ⲫ", "Ⲫ"); ("ⲭ", "Ⲭ");
    ("ⲯ", "Ⲯ"); ("ⲱ", "Ⲱ"); ("ⲳ", "Ⲳ"); ("ⲵ", "Ⲵ"); ("ⲷ", "Ⲷ");
    ("ⲹ", "Ⲹ"); ("ⲻ", "Ⲻ"); ("ⲽ", "Ⲽ"); ("ⲿ", "Ⲿ"); ("ⳁ", "Ⳁ");
    ("ⳃ", "Ⳃ"); ("ⳅ", "Ⳅ"); ("ⳇ", "Ⳇ"); ("ⳉ", "Ⳉ"); ("ⳋ", "Ⳋ");
    ("ⳍ", "Ⳍ"); ("ⳏ", "Ⳏ"); ("ⳑ", "Ⳑ"); ("ⳓ", "Ⳓ"); ("ⳕ", "Ⳕ");
    ("ⳗ", "Ⳗ"); ("ⳙ", "Ⳙ"); ("ⳛ", "Ⳛ"); ("ⳝ", "Ⳝ"); ("ⳟ", "Ⳟ");
    ("ⳡ", "Ⳡ"); ("ⳣ", "Ⳣ"); ("ⳬ", "Ⳬ"); ("ⳮ", "Ⳮ"); ("ⳳ", "Ⳳ");
    ("ⴀ", "Ⴀ"); ("ⴁ", "Ⴁ"); ("ⴂ", "Ⴂ"); ("ⴃ", "Ⴃ"); ("ⴄ", "Ⴄ");
    ("ⴅ", "Ⴅ"); ("ⴆ", "Ⴆ"); ("ⴇ", "Ⴇ"); ("ⴈ", "Ⴈ"); ("ⴉ", "Ⴉ");
    ("ⴊ", "Ⴊ"); ("ⴋ", "Ⴋ"); ("ⴌ", "Ⴌ"); ("ⴍ", "Ⴍ"); ("ⴎ", "Ⴎ");
    ("ⴏ", "Ⴏ"); ("ⴐ", "Ⴐ"); ("ⴑ", "Ⴑ"); ("ⴒ", "Ⴒ"); ("ⴓ", "Ⴓ");
    ("ⴔ", "Ⴔ"); ("ⴕ", "Ⴕ"); ("ⴖ", "Ⴖ"); ("ⴗ", "Ⴗ"); ("ⴘ", "Ⴘ");
    ("ⴙ", "Ⴙ"); ("ⴚ", "Ⴚ"); ("ⴛ", "Ⴛ"); ("ⴜ", "Ⴜ"); ("ⴝ", "Ⴝ");
    ("ⴞ", "Ⴞ"); ("ⴟ", "Ⴟ"); ("ⴠ", "Ⴠ"); ("ⴡ", "Ⴡ"); ("ⴢ", "Ⴢ");
    ("ⴣ", "Ⴣ"); ("ⴤ", "Ⴤ"); ("ⴥ", "Ⴥ"); ("ⴧ", "Ⴧ"); ("ⴭ", "Ⴭ");
    ("ꙁ", "Ꙁ"); ("ꙃ", "Ꙃ"); ("ꙅ", "Ꙅ"); ("ꙇ", "Ꙇ"); ("ꙉ", "Ꙉ");
    ("ꙋ", "Ꙋ"); ("ꙍ", "Ꙍ"); ("ꙏ", "Ꙏ"); ("ꙑ", "Ꙑ"); ("ꙓ", "Ꙓ");
    ("ꙕ", "Ꙕ"); ("ꙗ", "Ꙗ"); ("ꙙ", "Ꙙ"); ("ꙛ", "Ꙛ"); ("ꙝ", "Ꙝ");
    ("ꙟ", "Ꙟ"); ("ꙡ", "Ꙡ"); ("ꙣ", "Ꙣ"); ("ꙥ", "Ꙥ"); ("ꙧ", "Ꙧ");
    ("ꙩ", "Ꙩ"); ("ꙫ", "Ꙫ"); ("ꙭ", "Ꙭ"); ("ꚁ", "Ꚁ"); ("ꚃ", "Ꚃ");
    ("ꚅ", "Ꚅ"); ("ꚇ", "Ꚇ"); ("ꚉ", "Ꚉ"); ("ꚋ", "Ꚋ"); ("ꚍ", "Ꚍ");
    ("ꚏ", "Ꚏ"); ("ꚑ", "Ꚑ"); ("ꚓ", "Ꚓ"); ("ꚕ", "Ꚕ"); ("ꚗ", "Ꚗ");
    ("ꚙ", "Ꚙ"); ("ꚛ", "Ꚛ"); ("ꜣ", "Ꜣ"); ("ꜥ", "Ꜥ"); ("ꜧ", "Ꜧ");
    ("ꜩ", "Ꜩ"); ("ꜫ", "Ꜫ"); ("ꜭ", "Ꜭ"); ("ꜯ", "Ꜯ"); ("ꜳ", "Ꜳ");
    ("ꜵ", "Ꜵ"); ("ꜷ", "Ꜷ"); ("ꜹ", "Ꜹ"); ("ꜻ", "Ꜻ"); ("ꜽ", "Ꜽ");
    ("ꜿ", "Ꜿ"); ("ꝁ", "Ꝁ"); ("ꝃ", "Ꝃ"); ("ꝅ", "Ꝅ"); ("ꝇ", "Ꝇ");
    ("ꝉ", "Ꝉ"); ("ꝋ", "Ꝋ"); ("ꝍ", "Ꝍ"); ("ꝏ", "Ꝏ"); ("ꝑ", "Ꝑ");
    ("ꝓ", "Ꝓ"); ("ꝕ", "Ꝕ"); ("ꝗ", "Ꝗ"); ("ꝙ", "Ꝙ"); ("ꝛ", "Ꝛ");
    ("ꝝ", "Ꝝ"); ("ꝟ", "Ꝟ"); ("ꝡ", "Ꝡ"); ("ꝣ", "Ꝣ"); ("ꝥ", "Ꝥ");
    ("ꝧ", "Ꝧ"); ("ꝩ", "Ꝩ"); ("ꝫ", "Ꝫ"); ("ꝭ", "Ꝭ"); ("ꝯ", "Ꝯ");
    ("ꝺ", "Ꝺ"); ("ꝼ", "Ꝼ"); ("ꝿ", "Ꝿ"); ("ꞁ", "Ꞁ"); ("ꞃ", "Ꞃ");
    ("ꞅ", "Ꞅ"); ("ꞇ", "Ꞇ"); ("ꞌ", "Ꞌ"); ("ꞑ", "Ꞑ"); ("ꞓ", "Ꞓ");
    ("ꞔ", "Ꞔ"); ("ꞗ", "Ꞗ"); ("ꞙ", "Ꞙ"); ("ꞛ", "Ꞛ"); ("ꞝ", "Ꞝ");
    ("ꞟ", "Ꞟ"); ("ꞡ", "Ꞡ"); ("ꞣ", "Ꞣ"); ("ꞥ", "Ꞥ"); ("ꞧ", "Ꞧ");
    ("ꞩ", "Ꞩ"); ("ꞵ", "Ꞵ"); ("ꞷ", "Ꞷ"); ("ꞹ", "Ꞹ"); ("ꞻ", "Ꞻ");
    ("ꞽ", "Ꞽ"); ("ꞿ", "Ꞿ"); ("ꟁ", "Ꟁ"); ("ꟃ", "Ꟃ"); ("ꟈ", "Ꟈ");
    ("ꟊ", "Ꟊ"); ("ꟑ", "Ꟑ"); ("ꟗ", "Ꟗ"); ("ꟙ", "Ꟙ"); ("ꟶ", "Ꟶ");
    ("ꭓ", "Ꭓ"); ("ꭰ", "Ꭰ"); ("ꭱ", "Ꭱ"); ("ꭲ", "Ꭲ"); ("ꭳ", "Ꭳ");
    ("ꭴ", "Ꭴ"); ("ꭵ", "Ꭵ"); ("ꭶ", "Ꭶ"); ("ꭷ", "Ꭷ"); ("ꭸ", "Ꭸ");
    ("ꭹ", "Ꭹ"); ("ꭺ", "Ꭺ"); ("ꭻ", "Ꭻ"); ("ꭼ", "Ꭼ"); ("ꭽ", "Ꭽ");
    ("ꭾ", "Ꭾ"); ("ꭿ", "Ꭿ"); ("ꮀ", "Ꮀ"); ("ꮁ", "Ꮁ"); ("ꮂ", "Ꮂ");
    ("ꮃ", "Ꮃ"); ("ꮄ", "Ꮄ"); ("ꮅ", "Ꮅ"); ("ꮆ", "Ꮆ"); ("ꮇ", "Ꮇ");
    ("ꮈ", "Ꮈ"); ("ꮉ", "Ꮉ"); ("ꮊ", "Ꮊ"); ("ꮋ", "Ꮋ"); ("ꮌ", "Ꮌ");
    ("ꮍ", "Ꮍ"); ("ꮎ", "Ꮎ"); ("ꮏ", "Ꮏ"); ("ꮐ", "Ꮐ"); ("ꮑ", "Ꮑ");
    ("ꮒ", "Ꮒ"); ("ꮓ", "Ꮓ"); ("ꮔ", "Ꮔ"); ("ꮕ", "Ꮕ"); ("ꮖ", "Ꮖ");
    ("ꮗ", "Ꮗ"); ("ꮘ", "Ꮘ"); ("ꮙ", "Ꮙ"); ("ꮚ", "Ꮚ"); ("ꮛ", "Ꮛ");
    ("ꮜ", "Ꮜ"); ("ꮝ", "Ꮝ"); ("ꮞ", "Ꮞ"); ("ꮟ", "Ꮟ"); ("ꮠ", "Ꮠ");
    ("ꮡ", "Ꮡ"); ("ꮢ", "Ꮢ"); ("ꮣ", "Ꮣ"); ("ꮤ", "Ꮤ"); ("ꮥ", "Ꮥ");
    ("ꮦ", "Ꮦ"); ("ꮧ", "Ꮧ"); ("ꮨ", "Ꮨ"); ("ꮩ", "Ꮩ"); ("ꮪ", "Ꮪ");
    ("ꮫ", "Ꮫ"); ("ꮬ", "Ꮬ"); ("ꮭ", "Ꮭ"); ("ꮮ", "Ꮮ"); ("ꮯ", "Ꮯ");
    ("ꮰ", "Ꮰ"); ("ꮱ", "Ꮱ"); ("ꮲ", "Ꮲ"); ("ꮳ", "Ꮳ"); ("ꮴ", "Ꮴ");
    ("ꮵ", "Ꮵ"); ("ꮶ", "Ꮶ"); ("ꮷ", "Ꮷ"); ("ꮸ", "Ꮸ"); ("ꮹ", "Ꮹ");
    ("ꮺ", "Ꮺ"); ("ꮻ", "Ꮻ"); ("ꮼ", "Ꮼ"); ("ꮽ", "Ꮽ"); ("ꮾ", "Ꮾ");
    ("ꮿ", "Ꮿ"); ("ﬀ", "FF"); ("ﬁ", "FI"); ("ﬂ", "FL"); ("ﬃ", "FFI");
    ("ﬄ", "FFL"); ("ﬅ", "ST"); ("ﬆ", "ST"); ("ﬓ", "ՄՆ"); ("ﬔ", "ՄԵ");
    ("ﬕ", "ՄԻ"); ("ﬖ", "ՎՆ"); ("ﬗ", "ՄԽ"); ("ａ", "Ａ"); ("ｂ", "Ｂ");
    ("ｃ", "Ｃ"); ("ｄ", "Ｄ"); ("ｅ", "Ｅ"); ("ｆ", "Ｆ"); ("ｇ", "Ｇ");
    ("ｈ", "Ｈ"); ("ｉ", "Ｉ"); ("ｊ", "Ｊ"); ("ｋ", "Ｋ"); ("ｌ", "Ｌ");
    ("ｍ", "Ｍ"); ("ｎ", "Ｎ"); ("ｏ", "Ｏ"); ("ｐ", "Ｐ"); ("ｑ", "Ｑ");
    ("ｒ", "Ｒ"); ("ｓ", "Ｓ"); ("ｔ", "Ｔ"); ("ｕ", "Ｕ"); ("ｖ", "Ｖ");
    ("ｗ", "Ｗ"); ("ｘ", "Ｘ"); ("ｙ", "Ｙ"); ("ｚ", "Ｚ"); ("𐐨", "𐐀");
    ("𐐩", "𐐁"); ("𐐪", "𐐂"); ("𐐫", "𐐃"); ("𐐬", "𐐄"); ("𐐭", "𐐅");
    ("𐐮", "𐐆"); ("𐐯", "𐐇"); ("𐐰", "𐐈"); ("𐐱", "𐐉"); ("𐐲", "𐐊");
    ("𐐳", "𐐋"); ("𐐴", "𐐌"); ("𐐵", "𐐍"); ("𐐶", "𐐎"); ("𐐷", "𐐏");
    ("𐐸", "𐐐"); ("𐐹", "𐐑"); ("𐐺", "𐐒"); ("𐐻", "𐐓"); ("𐐼", "𐐔");
    ("𐐽", "𐐕"); ("𐐾", "𐐖"); ("𐐿", "𐐗"); ("𐑀", "𐐘"); ("𐑁", "𐐙");
    ("𐑂", "𐐚"); ("𐑃", "𐐛"); ("𐑄", "𐐜"); ("𐑅", "𐐝"); ("𐑆", "𐐞");
    ("𐑇", "𐐟"); ("𐑈", "𐐠"); ("𐑉", "𐐡"); ("𐑊", "𐐢"); ("𐑋", "𐐣");
    ("𐑌", "𐐤"); ("𐑍", "𐐥"); ("𐑎", "𐐦"); ("𐑏", "𐐧"); ("𐓘", "𐒰");
    ("𐓙", "𐒱"); ("𐓚", "𐒲"); ("𐓛", "𐒳"); ("𐓜", "𐒴"); ("𐓝", "𐒵");
    ("𐓞", "𐒶"); ("𐓟", "𐒷"); ("𐓠", "𐒸"); ("𐓡", "𐒹"); ("𐓢", "𐒺");
    ("𐓣", "𐒻"); ("𐓤", "𐒼"); ("𐓥", "𐒽"); ("𐓦", "𐒾"); ("𐓧", "𐒿");
    ("𐓨", "𐓀"); ("𐓩", "𐓁"); ("𐓪", "𐓂"); ("𐓫", "𐓃"); ("𐓬", "𐓄");
    ("𐓭", "𐓅"); ("𐓮", "𐓆"); ("𐓯", "𐓇"); ("𐓰", "𐓈"); ("𐓱", "𐓉");
    ("𐓲", "𐓊"); ("𐓳", "𐓋"); ("𐓴", "𐓌"); ("𐓵", "𐓍"); ("𐓶", "𐓎");
    ("𐓷", "𐓏"); ("𐓸", "𐓐"); ("𐓹", "𐓑"); ("𐓺", "𐓒"); ("𐓻", "𐓓");
    ("𐖗", "𐕰"); ("𐖘", "𐕱"); ("𐖙", "𐕲"); ("𐖚", "𐕳"); ("𐖛", "𐕴");
    ("𐖜", "𐕵"); ("𐖝", "𐕶"); ("𐖞", "𐕷"); ("𐖟", "𐕸"); ("𐖠", "𐕹");
    ("𐖡", "𐕺"); ("𐖣", "𐕼"); ("𐖤", "𐕽"); ("𐖥", "𐕾"); ("𐖦", "𐕿");
    ("𐖧", "𐖀"); ("𐖨", "𐖁"); ("𐖩", "𐖂"); ("𐖪", "𐖃"); ("𐖫", "𐖄");
    ("𐖬", "𐖅"); ("𐖭", "𐖆"); ("𐖮", "𐖇"); ("𐖯", "𐖈"); ("𐖰", "𐖉");
    ("𐖱", "𐖊"); ("𐖳", "𐖌"); ("𐖴", "𐖍"); ("𐖵", "𐖎"); ("𐖶", "𐖏");
    ("𐖷", "𐖐"); ("𐖸", "𐖑"); ("𐖹", "𐖒"); ("𐖻", "𐖔"); ("𐖼", "𐖕");
    ("𐳀", "𐲀"); ("𐳁", "𐲁"); ("𐳂", "𐲂"); ("𐳃", "𐲃"); ("𐳄", "𐲄");
    ("𐳅", "𐲅"); ("𐳆", "𐲆"); ("𐳇", "𐲇"); ("𐳈", "𐲈"); ("𐳉", "𐲉");
    ("𐳊", "𐲊"); ("𐳋", "𐲋"); ("𐳌", "𐲌"); ("𐳍", "𐲍"); ("𐳎", "𐲎");
    ("𐳏", "𐲏"); ("𐳐", "𐲐"); ("𐳑", "𐲑"); ("𐳒", "𐲒"); ("𐳓", "𐲓");
    ("𐳔", "𐲔"); ("𐳕", "𐲕"); ("𐳖", "𐲖"); ("𐳗", "𐲗"); ("𐳘", "𐲘");
    ("𐳙", "𐲙"); ("𐳚", "𐲚"); ("𐳛", "𐲛"); ("𐳜", "𐲜"); ("𐳝", "𐲝");
    ("𐳞", "𐲞"); ("𐳟", "𐲟"); ("𐳠", "𐲠"); ("𐳡", "𐲡"); ("𐳢", "𐲢");
    ("𐳣", "𐲣"); ("𐳤", "𐲤"); ("𐳥", "𐲥"); ("𐳦", "𐲦"); ("𐳧", "𐲧");
    ("𐳨", "𐲨"); ("𐳩", "𐲩"); ("𐳪", "𐲪"); ("𐳫", "𐲫"); ("𐳬", "𐲬");
    ("𐳭", "𐲭"); ("𐳮", "𐲮"); ("𐳯", "𐲯"); ("𐳰", "𐲰"); ("𐳱", "𐲱");
    ("𐳲", "𐲲"); ("𑣀", "𑢠"); ("𑣁", "𑢡"); ("𑣂", "𑢢"); ("𑣃", "𑢣");
    ("𑣄", "𑢤"); ("𑣅", "𑢥"); ("𑣆", "𑢦"); ("𑣇", "𑢧"); ("𑣈", "𑢨");
    ("𑣉", "𑢩"); ("𑣊", "𑢪"); ("𑣋", "𑢫"); ("𑣌", "𑢬"); ("𑣍", "𑢭");
    ("𑣎", "𑢮"); ("𑣏", "𑢯"); ("𑣐", "𑢰"); ("𑣑", "𑢱"); ("𑣒", "𑢲");
    ("𑣓", "𑢳"); ("𑣔", "𑢴"); ("𑣕", "𑢵"); ("𑣖", "𑢶"); ("𑣗", "𑢷");
    ("𑣘", "𑢸"); ("𑣙", "𑢹"); ("𑣚", "𑢺"); ("𑣛", "𑢻"); ("𑣜", "𑢼");
    ("𑣝", "𑢽"); ("𑣞", "𑢾"); ("𑣟", "𑢿"); ("𖹠", "𖹀"); ("𖹡", "𖹁");
    ("𖹢", "𖹂"); ("𖹣", "𖹃"); ("𖹤", "𖹄"); ("𖹥", "𖹅"); ("𖹦", "𖹆");
    ("𖹧", "𖹇"); ("𖹨", "𖹈"); ("𖹩", "𖹉"); ("𖹪", "𖹊"); ("𖹫", "𖹋");
    ("𖹬", "𖹌"); ("𖹭", "𖹍"); ("𖹮", "𖹎"); ("𖹯", "𖹏"); ("𖹰", "𖹐");
    ("𖹱", "𖹑"); ("𖹲", "𖹒"); ("𖹳", "𖹓"); ("𖹴", "𖹔"); ("𖹵", "𖹕");
    ("𖹶", "𖹖"); ("𖹷", "𖹗"); ("𖹸", "𖹘"); ("𖹹", "𖹙"); ("𖹺", "𖹚");
    ("𖹻", "𖹛"); ("𖹼", "𖹜"); ("𖹽", "𖹝"); ("𖹾", "𖹞"); ("𖹿", "𖹟");
    ("𞤢", "𞤀"); ("𞤣", "𞤁"); ("𞤤", "𞤂"); ("𞤥", "𞤃"); ("𞤦", "𞤄");
    ("𞤧", "𞤅"); ("𞤨", "𞤆"); ("𞤩", "𞤇"); ("𞤪", "𞤈"); ("𞤫", "𞤉");
    ("𞤬", "𞤊"); ("𞤭", "𞤋"); ("𞤮", "𞤌"); ("𞤯", "𞤍"); ("𞤰", "𞤎");
    ("𞤱", "𞤏"); ("𞤲", "𞤐"); ("𞤳", "𞤑"); ("𞤴", "𞤒"); ("𞤵", "𞤓");
    ("𞤶", "𞤔"); ("𞤷", "𞤕"); ("𞤸", "𞤖"); ("𞤹", "𞤗"); ("𞤺", "𞤘");
    ("𞤻", "𞤙"); ("𞤼", "𞤚"); ("𞤽", "𞤛"); ("𞤾", "𞤜"); ("𞤿", "𞤝");
    ("𞥀", "𞤞"); ("𞥁", "𞤟"); ("𞥂", "𞤠"); ("𞥃", "𞤡") ].

Fixpoint mapped (c : string) (t : list (string * string)) : option string :=
  match t with
  | [] => None
  | (a, b) :: t' => if a =? c then Some b else mapped c t'
  end.

(** [c.upper()] of one character. *)
Definition upper_of (c : string) : string :=
  match c with
  | String b EmptyString => String (upper_char b) EmptyString
  | _ =>
      match mapped c uppercase_mapping with
      | Some u => u
      | None => c
      end
  end.

(** [s.upper()]: every character is replaced by its uppercase mapping, which
    may be longer than the character. *)
Definition upper (s : string) : string :=
  join (map upper_of (chars s)).

(** [str(s)] of a string is the string. *)
Definition str (s : string) : string := s.

(** *** Lists *)

(** [l[0]] *)
Definition first {A : Type} (l : list A) : outcome A :=
  match l with
  | [] => Raise IndexError
  | a :: _ => Ok a
  end.

(** [l[-1]] *)
Fixpoint last {A : Type} (l : list A) : outcome A :=
  match l with
  | [] => Raise IndexError
  | [a] => Ok a
  | _ :: l' => last l'
  end.

(** [l[i]] for a non-negative [i] *)
Definition item {A : Type} (l : list A) (i : nat) : outcome A :=
  match nth_error l i with
  | Some a => Ok a
  | None => Raise IndexError
  end.

(** [l[1:]] *)
Definition from1 {A : Type} (l : list A) : list A := tl l.

(** [x in l] for a list of strings *)
Definition contains (x : string) (l : list string) : bool :=
  existsb (String.eqb x) l.

(** [l[0] if l else d] *)
Definition first_or {A : Type} (l : list A) (d : A) : A :=
  match l with
  | [] => d
  | a :: _ => a
  end.

(** *** Floats: IEEE 754 binary64, as [spec_float] with 53 bits of
    precision. *)

Definition prec : Z := 53.
Definition emax : Z := 1024.
Definition float : Type := spec_float.

(** The float of an integer literal. *)
Definition of_Z (z : Z) : float := binary_normalize prec emax z 0 false.

(** [x == 0]: true of both zeros, false of a NaN. *)
Definition is_zero (x : float) : bool := SFeqb x (S754_zero false).

(** [x / y] *)
Definition truediv (x y : float) : outcome float :=
  if is_zero y then Raise ZeroDivisionError else Ok (SFdiv prec emax x y).

(** [x - y] *)
Definition sub (x y : float) : float := SFsub prec emax x y.

(** The integer nearest to [n / d] for [d > 0], a tie going to the even
    one. *)
Definition nearest_int (n d : Z) : Z :=
  let q := (n / d)%Z in
  match (2 * (n mod d) ?= d)%Z with
  | Lt => q
  | Gt => (q + 1)%Z
  | Eq => if Z.even q then q else (q + 1)%Z
  end.

(** The float nearest to [n / d] for [n >= 0] and [d > 0], with sign [s]:
    the correctly rounded conversion of a decimal string. *)
Definition nearest_float (s : bool) (n d : Z) : float :=
  match n with
  | Z0 => S754_zero s
  | _ =>
      let '(m, e, l) := SFdiv_core_binary prec emax n 0 d 0 in
      binary_round_aux prec emax s m e l
  end.

(** [round(x, ndigits)] for a small non-negative [ndigits]: the exact value
    of [x] is rounded half-even to [ndigits] decimals and the decimal is
    converted back; zeros, infinities and NaN round to themselves. *)
Definition round (x : float) (ndigits : nat) : float :=
  match x with
  | S754_finite s m e =>
      let p := (10 ^ Z.of_nat ndigits)%Z in
      let n :=
        match e with
        | Zneg k => nearest_int (Zpos m * p) (2 ^ Zpos k)
        | _ => (Zpos m * 2 ^ e * p)%Z
        end in
      nearest_float s n p
  | _ => x
  end.

End Py.

Notation "x <- m ;; k" := (Py.bind m (fun x => k))
  (at level 61, m at next level, right associativity).

(** ** The spreadsheet behind [get_sheet]

    Modelled on the two calls the handlers make on a worksheet, gspread's
    [get_all_values] and [append_row]: a worksheet is the list of its rows in
    order, a cell holds what was appended (a string or a number), and reading
    returns every cell as text.  Rows are kept and read at their own length,
    whereas gspread reads a worksheet back with every row filled up to the
    widest: a theorem that reads a last cell or a cell at an index from a
    row appended before assumes rows of one width. *)

Module Sheets.

Inductive pyval : Type :=
| VStr (s : string)
| VNum (x : Py.float).

Definition row : Type := list pyval.
Definition table : Type := list row.

Inductive worksheet : Type :=
| WsRecebimiento
| WsTrillado
| WsPerfilado.

(** The spreadsheet: its three worksheets and the way it displays a number
    cell when its values are read. *)
Record store : Type := {
  recebimiento_rows : table;
  trillado_rows : table;
  perfilado_rows : table;
  number_text : Py.float -> string
}.

(** [get_sheet(work_sheet_name)]: the worksheet of that name in a reachable
    spreadsheet. *)
Definition get_sheet (work_sheet_name : string) : Py.outcome worksheet :=
  if work_sheet_name =? "Recebimiento" then Py.Ok WsRecebimiento
  else if work_sheet_name =? "Trillado" then Py.Ok WsTrillado
  else if work_sheet_name =? "Perfilado" then Py.Ok WsPerfilado
  else Py.Raise Py.WorksheetNotFound.

Definition rows_of (st : store) (ws : worksheet) : table :=
  match ws with
  | WsRecebimiento => recebimiento_rows st
  | WsTrillado => trillado_rows st
  | WsPerfilado => perfilado_rows st
  end.

Definition cell_text (st : store) (v : pyval) : string :=
  match v with
  | VStr s => s
  | VNum x => number_text st x
  end.

(** [sheet.get_all_values()] *)
Definition get_all_values (st : store) (ws : worksheet) : list (list string) :=
  map (map (cell_text st)) (rows_of st ws).

(** [sheet.append_row(row)] *)
Definition append_row (st : store) (ws : worksheet) (r : row) : store :=
  match ws with
  | WsRecebimiento =>
      {| recebimiento_rows := (recebimiento_rows st ++ [r])%list;
         trillado_rows := trillado_rows st;
         perfilado_rows := perfilado_rows st;
         number_text := number_text st |}
  | WsTrillado =>
      {| recebimiento_rows := recebimiento_rows st;
         trillado_rows := (trillado_rows st ++ [r])%list;
         perfilado_rows := perfilado_rows st;
         number_text := number_text st |}
  | WsPerfilado =>
      {| recebimiento_rows := recebimiento_rows st;
         trillado_rows := trillado_rows st;
         perfilado_rows := (perfilado_rows st ++ [r])%list;
         number_text := number_text st |}
  end.

(** A Python dict with string keys, in insertion order. *)
Definition dict : Type := list (string * pyval).

Fixpoint dict_get (d : dict) (k : string) : option pyval :=
  match d with
  | [] => None
  | (k', v) :: d' => if k' =? k then Some v else dict_get d' k
  end.

(** The context a handler passes to [templates.TemplateResponse] (the
    request object left out): the template, the status message, the echoed
    record, the defaults of the form fields and the selection lists. *)
Record response : Type := {
  template : string;
  msg : option string;
  last_submission : option dict;
  defaults : dict;
  lists : list (string * list string)
}.

End Sheets.

Import Py Sheets.

(** ** Recebimiento (receiving) *)

Module Recebimiento.

(** The fields of the posted form; a check box that was not ticked arrives
    as [None]. *)
Record form : Type := {
  fecha : string;
  provedor : string;
  ciudad : string;
  origen : string;
  lote_bolsa : string;
  cantidad_kg : float;
  humedad : float;
  motorista : string;
  vehiculo_placa : string;
  observacion : string;
  libre_contaminacion : option string;
  vehiculo_sin_contaminacion : option string;
  buen_estado : option string;
  responsable : string
}.

(** [x if x == "yes" else "no"] *)
Definition yes_or_no (x : option string) : string :=
  match x with
  | Some s => if s =? "yes" then s else "no"
  | None => "no"
  end.

(** [fecha.replace("-", "") + str(provedor[:3]).upper()
     + str(origen[:3]).upper() + "-" + str(lote_bolsa).upper()] *)
Definition id_recibimiento (fecha provedor origen lote_bolsa : string) : string :=
  (((replace "-" "" fecha ++ upper (str (slice_to 3 provedor)))
      ++ upper (str (slice_to 3 origen))) ++ "-") ++ upper (str lote_bolsa).

Definition id_of (f : form) : string :=
  id_recibimiento (fecha f) (provedor f) (origen f) (lote_bolsa f).

(** The row prepared for the worksheet, identifier first. *)
Definition row_of (f : form) : row :=
  [ VStr (id_of f); VStr (fecha f); VStr (provedor f); VStr (ciudad f);
    VStr (origen f); VStr (lote_bolsa f);
    VNum (cantidad_kg f); VNum (humedad f); VStr (motorista f);
    VStr (vehiculo_placa f); VStr (observacion f);
    VStr (yes_or_no (libre_contaminacion f));
    VStr (yes_or_no (vehiculo_sin_contaminacion f));
    VStr (yes_or_no (buen_estado f));
    VStr (responsable f) ].

Definition fields_of (f : form) : dict :=
  [ ("fecha", VStr (fecha f)); ("provedor", VStr (provedor f));
    ("ciudad", VStr (ciudad f)); ("origen", VStr (origen f));
    ("lote_bolsa", VStr (lote_bolsa f));
    ("cantidad_kg", VNum (cantidad_kg f)); ("humedad", VNum (humedad f));
    ("motorista", VStr (motorista f));
    ("vehiculo_placa", VStr (vehiculo_placa f));
    ("observacion", VStr (observacion f));
    ("libre_contaminacion", VStr (yes_or_no (libre_contaminacion f)));
    ("vehiculo_sin_contaminacion",
      VStr (yes_or_no (vehiculo_sin_contaminacion f)));
    ("buen_estado", VStr (yes_or_no (buen_estado f)));
    ("responsable", VStr (responsable f)) ].

(** [[r[0] for r in sheet.get_all_values()]] *)
Definition existing_ids (st : store) (sheet : worksheet) : outcome (list string) :=
  comprehension first (get_all_values st sheet).

(** GET /recebimiento; [today] is [date.today().isoformat()]. *)
Definition form_page (today : string) : response :=
  {| template := "recebimiento.html";
     msg := None;
     last_submission := None;
     defaults :=
       [ ("fecha", VStr today); ("provedor", VStr ""); ("ciudad", VStr "");
         ("origen", VStr ""); ("lote_bolsa", VStr "");
         ("cantidad_kg", VStr ""); ("humedad", VStr "");
         ("motorista", VStr ""); ("vehiculo_placa", VStr "");
         ("observacion", VStr ""); ("libre_contaminacion", VStr "yes");
         ("vehiculo_sin_contaminacion", VStr "yes");
         ("buen_estado", VStr "yes"); ("responsable", VStr "") ];
     lists := [] |}.

(** POST /recebimiento *)
Definition submit_form (st : store) (f : form) : outcome (store * response) :=
  sheet <- get_sheet "Recebimiento" ;;
  let id := id_of f in
  let row := row_of f in
  ids <- existing_ids st sheet ;;
  let '(st', msg) :=
    if contains id ids
    then (st, "❌ Ya esta registrado! ID: " ++ id)
    else (append_row st sheet row, "✅ Registered successfully! ID: " ++ id) in
  Ok (st',
      {| template := "recebimiento.html";
         msg := Some msg;
         last_submission := Some (("id_recibimiento", VStr id) :: fields_of f);
         defaults := fields_of f;
         lists := [] |}).

End Recebimiento.

(** ** Trillado (hulling) *)

Module Trillado.

Record form : Type := {
  id_recibimiento : string;
  fecha : string;
  grano_num : string;
  cantidad_kg : float;
  observacion : string
}.

(** [[r[0] for r in all_rows[1:]] if len(all_rows) > 1 else []] over the
    Recebimiento worksheet: the selection list of the form. *)
Definition recibimiento_ids (st : store) : outcome (list string) :=
  sheet_receb <- get_sheet "Recebimiento" ;;
  let all_rows := get_all_values st sheet_receb in
  if (1 <? List.length all_rows)%nat
  then comprehension first (from1 all_rows)
  else Ok [].

(** [f"{id_recibimiento}-{grano_num}"] *)
Definition id_trillado (id_recibimiento grano_num : string) : string :=
  id_recibimiento ++ "-" ++ grano_num.

Definition id_of (f : form) : string :=
  id_trillado (id_recibimiento f) (grano_num f).

(** [[r[-1] for r in trillado_rows[1:]] if len(trillado_rows) > 1 else []] *)
Definition existing_ids_trillado (st : store) (sheet_trillado : worksheet)
  : outcome (list string) :=
  let trillado_rows := get_all_values st sheet_trillado in
  if (1 <? List.length trillado_rows)%nat
  then comprehension last (from1 trillado_rows)
  else Ok [].

Definition row_of (f : form) : row :=
  [ VStr (id_recibimiento f); VStr (fecha f); VStr (grano_num f);
    VNum (cantidad_kg f); VStr (observacion f); VStr (id_of f) ].

Definition fields_of (f : form) : dict :=
  [ ("id_recibimiento", VStr (id_recibimiento f)); ("fecha", VStr (fecha f));
    ("grano_num", VStr (grano_num f)); ("cantidad_kg", VNum (cantidad_kg f));
    ("observacion", VStr (observacion f)) ].

(** GET /trillado *)
Definition trillado_form_page (st : store) (today : string) : outcome response :=
  ids <- recibimiento_ids st ;;
  Ok {| template := "trillado.html";
        msg := None;
        last_submission := None;
        defaults :=
          [ ("id_recibimiento", VStr (first_or ids ""));
            ("fecha", VStr today); ("grano_num", VStr "");
            ("cantidad_kg", VStr ""); ("observacion", VStr "") ];
        lists := [ ("recibimiento_ids", ids) ] |}.

(** POST /trillado *)
Definition trillado_submit_form (st : store) (f : form)
  : outcome (store * response) :=
  ids <- recibimiento_ids st ;;
  sheet_trillado <- get_sheet "Trillado" ;;
  let id := id_of f in
  existing <- existing_ids_trillado st sheet_trillado ;;
  let '(st', msg) :=
    if contains id existing
    then (st, "❌ Ya esta registrado! ID Trillado: " ++ id)
    else (append_row st sheet_trillado (row_of f),
          "✅ Trillado registrado! ID Trillado: " ++ id) in
  Ok (st',
      {| template := "trillado.html";
         msg := Some msg;
         last_submission := Some (fields_of f ++ [ ("id_trillado", VStr id) ])%list;
         defaults := fields_of f;
         lists := [ ("recibimiento_ids", ids) ] |}).

End Trillado.

(** ** Perfilado (profiling) *)

Module Perfilado.

(** The fields of the posted form; a number field left out arrives as the
    default [0], taken as the float it compares equal to. *)
Record form : Type := {
  id_trillado : string;
  muestra_pergamino : float;
  humedad_pergamino : float;
  muestra_trillado : float;
  malla : string;
  densidad : float;
  humedad_grano_verde : float;
  negro : float;
  agrio : float;
  cereza_seca : float;
  dano_hongo : float;
  impurezas : float;
  dano_severo_insectos : float;
  parcial_negro : float;
  parcial_agrio : float;
  pergamino : float;
  flotador : float;
  inmaduro : float;
  averanado : float;
  concha : float;
  partido_mordido : float;
  cascara_pulpa_seca : float;
  dano_leve_insectos : float;
  perfil : string;
  caramelizacion : float;
  desarrollo : float
}.

(** [0 if muestra_pergamino == 0
     else 1 - round(muestra_trillado/muestra_pergamino, 2)].  The integer
    literals [0] and [1] are taken as the floats Python compares and
    subtracts them as. *)
Definition perda_casca (muestra_pergamino muestra_trillado : float)
  : outcome float :=
  if is_zero muestra_pergamino
  then Ok (of_Z 0)
  else
    ratio <- truediv muestra_trillado muestra_pergamino ;;
    Ok (sub (of_Z 1) (round ratio 2)).

(** [[r[5] for r in trillado_rows[1:] if len(r) > 5]
     if len(trillado_rows) > 1 else []] *)
Definition id_trillado_options (st : store) : outcome (list string) :=
  sheet_trillado <- get_sheet "Trillado" ;;
  let trillado_rows := get_all_values st sheet_trillado in
  if (1 <? List.length trillado_rows)%nat
  then comprehension (fun r => item r 5)
         (filter (fun r => (5 <? List.length r)%nat) (from1 trillado_rows))
  else Ok [].

(** [[r[0] for r in perfilado_rows[1:]] if len(perfilado_rows) > 1 else []] *)
Definition existing_ids_perfilado (st : store) (sheet_perfilado : worksheet)
  : outcome (list string) :=
  let perfilado_rows := get_all_values st sheet_perfilado in
  if (1 <? List.length perfilado_rows)%nat
  then comprehension first (from1 perfilado_rows)
  else Ok [].

Definition row_of (f : form) (perda_casca : float) : row :=
  [ VStr (id_trillado f); VNum (muestra_pergamino f);
    VNum (humedad_pergamino f); VNum (muestra_trillado f); VStr (malla f);
    VNum (densidad f); VNum (humedad_grano_verde f); VNum perda_casca;
    VNum (negro f); VNum (agrio f); VNum (cereza_seca f);
    VNum (dano_hongo f); VNum (impurezas f); VNum (dano_severo_insectos f);
    VNum (parcial_negro f); VNum (parcial_agrio f); VNum (pergamino f);
    VNum (flotador f); VNum (inmaduro f); VNum (averanado f);
    VNum (concha f); VNum (partido_mordido f); VNum (cascara_pulpa_seca f);
    VNum (dano_leve_insectos f); VStr (perfil f); VNum (caramelizacion f);
    VNum (desarrollo f) ].

Definition fields_of (f : form) : dict :=
  [ ("id_trillado", VStr (id_trillado f));
    ("muestra_pergamino", VNum (muestra_pergamino f));
    ("humedad_pergamino", VNum (humedad_pergamino f));
    ("muestra_trillado", VNum (muestra_trillado f));
    ("malla", VStr (malla f)); ("densidad", VNum (densidad f));
    ("humedad_grano_verde", VNum (humedad_grano_verde f));
    ("negro", VNum (negro f)); ("agrio", VNum (agrio f));
    ("cereza_seca", VNum (cereza_seca f));
    ("dano_hongo", VNum (dano_hongo f)); ("impurezas", VNum (impurezas f));
    ("dano_severo_insectos", VNum (dano_severo_insectos f));
    ("parcial_negro", VNum (parcial_negro f));
    ("parcial_agrio", VNum (parcial_agrio f));
    ("pergamino", VNum (pergamino f)); ("flotador", VNum (flotador f));
    ("inmaduro", VNum (inmaduro f)); ("averanado", VNum (averanado f));
    ("concha", VNum (concha f));
    ("partido_mordido", VNum (partido_mordido f));
    ("cascara_pulpa_seca", VNum (cascara_pulpa_seca f));
    ("dano_leve_insectos", VNum (dano_leve_insectos f));
    ("perfil", VStr (perfil f));
    ("caramelizacion", VNum (caramelizacion f));
    ("desarrollo", VNum (desarrollo f)) ].

(** GET /perfilado *)
Definition perfilado_form_page (st : store) : outcome response :=
  options <- id_trillado_options st ;;
  Ok {| template := "perfilado.html";
        msg := None;
        last_submission := None;
        defaults :=
          [ ("id_trillado", VStr (first_or options ""));
            ("muestra_pergamino", VStr ""); ("humedad_pergamino", VStr "");
            ("muestra_trillado", VStr ""); ("malla", VStr "");
            ("densidad", VStr ""); ("humedad_grano_verde", VStr "");
            ("negro", VStr ""); ("agrio", VStr ""); ("cereza_seca", VStr "");
            ("dano_hongo", VStr ""); ("impurezas", VStr "");
            ("dano_severo_insectos", VStr ""); ("parcial_negro", VStr "");
            ("parcial_agrio", VStr ""); ("pergamino", VStr "");
            ("flotador", VStr ""); ("inmaduro", VStr "");
            ("averanado", VStr ""); ("concha", VStr "");
            ("partido_mordido", VStr ""); ("cascara_pulpa_seca", VStr "");
            ("dano_leve_insectos", VStr "");
            ("perfil", VStr "Frutos Citricos");
            ("caramelizacion", VStr ""); ("desarrollo", VStr "") ];
        lists := [ ("id_trillado_options", options) ] |}.

(** POST /perfilado *)
Definition perfilado_submit_form (st : store) (f : form)
  : outcome (store * response) :=
  loss <- perda_casca (muestra_pergamino f) (muestra_trillado f) ;;
  options <- id_trillado_options st ;;
  sheet_perfilado <- get_sheet "Perfilado" ;;
  existing <- existing_ids_perfilado st sheet_perfilado ;;
  let '(st', msg) :=
    if contains (id_trillado f) existing
    then (st, "❌ Ya esta registrado! ID Trillado: " ++ id_trillado f)
    else (append_row st sheet_perfilado (row_of f loss),
          "✅ Perfilado registrado! ID Trillado: " ++ id_trillado f) in
  Ok (st',
      {| template := "perfilado.html";
         msg := Some msg;
         last_submission := Some (fields_of f);
         defaults := fields_of f;
         lists := [ ("id_trillado_options", options) ] |}).

End Perfilado.

(** ** The specification's wording, to compare the handlers with *)

Module Spec.

(** A date with its dashes removed. *)
Fixpoint without_dashes (s : string) : string :=
  match s with
  | EmptyString => EmptyString
  | String c s' =>
      if Ascii.eqb c "-" then without_dashes s' else String c (without_dashes s')
  end.



(** [0] when the parchment sample weighs [0], else [1] minus the ratio
    rounded to 2 decimal places. *)
Definition husk_loss_fraction (sample_parchment_weight sample_hulled_weight : float)
  : float :=
  if is_zero sample_parchment_weight
  then S754_zero false
  else sub (of_Z 1)
         (round (SFdiv prec emax sample_hulled_weight sample_parchment_weight) 2).

(** The entries of a key column: the cell at position [i] of every row that
    is long enough to have one, in order. *)
Definition column (i : nat) (rows : list (list string)) : list string :=
  flat_map (fun r => match nth_error r i with Some c => [c] | None => [] end) rows.

(** The last cell of every row that has one, in order. *)
Definition last_column (rows : list (list string)) : list string :=
  flat_map (fun r => match rev r with c :: _ => [c] | [] => [] end) rows.

(** The rows after the header row. *)
Definition records {A : Type} (rows : list A) : list A := tl rows.

(** The Profiling selection list: in order, the entry at index 5 of every
    row after the header that has more than 5 columns. *)
Definition profiling_selection (rows : list (list string)) : list string :=
  map (fun r => nth 5 r "")
    (filter (fun r => (5 <? List.length r)%nat) (records rows)).

(** The float a decimal literal [n/d] denotes, as [0.1] for [1/10]. *)
Definition decimal (n d : Z) : float := nearest_float false n d.

(** How many entries of a key column equal an identifier. *)
Definition occurrences (id : string) (keys : list string) : nat :=
  count_occ string_dec keys id.

(** Every row has at least one cell. *)
Definition no_empty_row (t : table) : Prop := Forall (fun r => r <> []) t.

(** [id] occurs inside [m]. *)
Definition mentions (m id : string) : Prop :=
  exists before after, m = before ++ id ++ after.

End Spec.

(** ** The three POST endpoints as one dispatch *)

Module Stage.

Inductive submission : Type :=
| Receiving (f : Recebimiento.form)
| Hulling (f : Trillado.form)
| Profiling (f : Perfilado.form).

(** The handler FastAPI routes the posted form to. *)
Definition handle (st : store) (s : submission) : outcome (store * response) :=
  match s with
  | Receiving f => Recebimiento.submit_form st f
  | Hulling f => Trillado.trillado_submit_form st f
  | Profiling f => Perfilado.perfilado_submit_form st f
  end.

(** The worksheet a submission is appended to. *)
Definition target (s : submission) : worksheet :=
  match s with
  | Receiving _ => WsRecebimiento
  | Hulling _ => WsTrillado
  | Profiling _ => WsPerfilado
  end.

(** The identifier derived for a submission. *)
Definition derived_id (s : submission) : string :=
  match s with
  | Receiving f => Recebimiento.id_of f
  | Hulling f => Trillado.id_of f
  | Profiling f => Perfilado.id_trillado f
  end.

(** The key column of the target worksheet as each stage reads it:
    Recebimiento the first cell of every row, Trillado the last cell and
    Perfilado the first cell of the rows after the header. *)
Definition key_column (st : store) (s : submission) : list string :=
  match s with
  | Receiving _ => Spec.column 0 (get_all_values st WsRecebimiento)
  | Hulling _ => Spec.last_column (Spec.records (get_all_values st WsTrillado))
  | Profiling _ => Spec.column 0 (Spec.records (get_all_values st WsPerfilado))
  end.

(** The key column as the duplicate guard is specified, the same way at
    every stage: the key cell of the rows after the header. *)
Definition record_keys (st : store) (s : submission) : list string :=
  match s with
  | Receiving _ => Spec.column 0 (Spec.records (get_all_values st WsRecebimiento))
  | Hulling _ => Spec.last_column (Spec.records (get_all_values st WsTrillado))
  | Profiling _ => Spec.column 0 (Spec.records (get_all_values st WsPerfilado))
  end.

(** Row 0 of the Recebimiento worksheet does not begin with the identifier
    of a Receiving submission.  Nothing is asked at the other stages, whose
    checks pass over row 0. *)
Definition header_differs (st : store) (s : submission) : Prop :=
  match s with
  | Receiving f =>
      ~ In (Recebimiento.id_of f)
          (Spec.column 0 (firstn 1 (get_all_values st WsRecebimiento)))
  | Hulling _ => True
  | Profiling _ => True
  end.

(** The rows a handler reads a key cell from all have one. *)
Definition readable (st : store) (s : submission) : Prop :=
  match s with
  | Receiving _ => Spec.no_empty_row (recebimiento_rows st)
  | Hulling _ =>
      Spec.no_empty_row (Spec.records (recebimiento_rows st))
      /\ Spec.no_empty_row (Spec.records (trillado_rows st))
  | Profiling _ => Spec.no_empty_row (Spec.records (perfilado_rows st))
  end.

(** The posted values of a submission in the order of the worksheet's
    columns: the prepared row, for Perfilado without its derived column 7. *)
Definition attempted (s : submission) : list pyval :=
  match s with
  | Receiving f => Recebimiento.row_of f
  | Hulling f => Trillado.row_of f
  | Profiling f =>
      let r := Perfilado.row_of f (of_Z 0) in
      (firstn 7 r ++ skipn 8 r)%list
  end.

End Stage.

(** ** Sample worksheets and forms *)

Module Samples.

(** A display of number cells. *)
Definition shown (x : float) : string := "#".

Definition sheets (recebimiento trillado perfilado : table) : store :=
  {| recebimiento_rows := recebimiento;
     trillado_rows := trillado;
     perfilado_rows := perfilado;
     number_text := shown |}.

Definition recebimiento_header : row :=
  map VStr [ "id_recibimiento"; "fecha"; "provedor"; "ciudad"; "origen";
             "lote_bolsa"; "cantidad_kg"; "humedad"; "motorista";
             "vehiculo_placa"; "observacion"; "libre_contaminacion";
             "vehiculo_sin_contaminacion"; "buen_estado"; "responsable" ].

Definition trillado_header : row :=
  map VStr [ "id_recibimiento"; "fecha"; "grano_num"; "cantidad_kg";
             "observacion"; "id_trillado" ].

Definition perfilado_header : row := [ VStr "id_trillado" ].

(** The three worksheets with their header rows and no record. *)
Definition headers_only : store :=
  sheets [recebimiento_header] [trillado_header] [perfilado_header].

(** Worksheets whose header cells are written like identifiers. *)
Definition capital_headers : store :=
  sheets [ map VStr [ "ID-RECIBIMIENTO"; "FECHA"; "PROVEDOR" ] ]
         [ map VStr [ "ID-RECIBIMIENTO"; "FECHA"; "GRANO"; "KG"; "OBS"; "ID-TRILLADO" ] ]
         [ map VStr [ "ID-TRILLADO"; "MUESTRA" ] ].

(** Worksheets whose only row has no cell. *)
Definition blank : store := sheets [ [] ] [ [] ] [ [] ].

(** Worksheets with a row without cells after the header. *)
Definition gapped : store :=
  sheets [ recebimiento_header; [] ]
         [ trillado_header; []; map VStr [ "a"; "b"; "c"; "d"; "e"; "a-c" ] ]
         [ perfilado_header; [] ].

(** A Trillado worksheet with a gap after the header and a readable
    Recebimiento worksheet. *)
Definition gapped_trillado : store :=
  sheets [ recebimiento_header ] [ trillado_header; [] ] [ perfilado_header ].

Definition lot (fecha provedor origen lote_bolsa : string) : Recebimiento.form :=
  {| Recebimiento.fecha := fecha;
     Recebimiento.provedor := provedor;
     Recebimiento.ciudad := "Neiva";
     Recebimiento.origen := origen;
     Recebimiento.lote_bolsa := lote_bolsa;
     Recebimiento.cantidad_kg := of_Z 70;
     Recebimiento.humedad := of_Z 11;
     Recebimiento.motorista := "";
     Recebimiento.vehiculo_placa := "";
     Recebimiento.observacion := "";
     Recebimiento.libre_contaminacion := Some "yes";
     Recebimiento.vehiculo_sin_contaminacion := None;
     Recebimiento.buen_estado := Some "yes";
     Recebimiento.responsable := "" |}.

Definition roble : Recebimiento.form :=
  lot "2024-03-05" "Finca El Roble" "Huila" "B12".

(** The header rows and the received lot [roble]. *)
Definition with_roble : store :=
  sheets [ recebimiento_header; Recebimiento.row_of roble ]
         [ trillado_header ] [ perfilado_header ].

Definition batch (id_recibimiento grano_num : string) : Trillado.form :=
  {| Trillado.id_recibimiento := id_recibimiento;
     Trillado.fecha := "2024-03-09";
     Trillado.grano_num := grano_num;
     Trillado.cantidad_kg := of_Z 60;
     Trillado.observacion := "" |}.

Definition profile (id_trillado : string) (muestra_pergamino muestra_trillado : float)
  : Perfilado.form :=
  {| Perfilado.id_trillado := id_trillado;
     Perfilado.muestra_pergamino := muestra_pergamino;
     Perfilado.humedad_pergamino := of_Z 11;
     Perfilado.muestra_trillado := muestra_trillado;
     Perfilado.malla := "15";
     Perfilado.densidad := of_Z 0;
     Perfilado.humedad_grano_verde := of_Z 0;
     Perfilado.negro := of_Z 0;
     Perfilado.agrio := of_Z 0;
     Perfilado.cereza_seca := of_Z 0;
     Perfilado.dano_hongo := of_Z 0;
     Perfilado.impurezas := of_Z 0;
     Perfilado.dano_severo_insectos := of_Z 0;
     Perfilado.parcial_negro := of_Z 0;
     Perfilado.parcial_agrio := of_Z 0;
     Perfilado.pergamino := of_Z 0;
     Perfilado.flotador := of_Z 0;
     Perfilado.inmaduro := of_Z 0;
     Perfilado.averanado := of_Z 0;
     Perfilado.concha := of_Z 0;
     Perfilado.partido_mordido := of_Z 0;
     Perfilado.cascara_pulpa_seca := of_Z 0;
     Perfilado.dano_leve_insectos := of_Z 0;
     Perfilado.perfil := "Frutos Citricos";
     Perfilado.caramelizacion := of_Z 0;
     Perfilado.desarrollo := of_Z 0 |}.

End Samples.

(** ** Vocabulary for the chaining of the stages *)

Module Chain.

(** A string holds a hyphen. *)
Fixpoint has_dash (s : string) : bool :=
  match s with
  | EmptyString => false
  | String c s' => Ascii.eqb c "-" || has_dash s'
  end.

(** Every row has exactly the 6 cells of a Trillado record. *)
Definition six_cells (t : table) : Prop :=
  Forall (fun r : row => List.length r = 6%nat) t.

(** The row a handler appends for a submission it accepts. *)
Definition appended (s : Stage.submission) : row :=
  match s with
  | Stage.Receiving f => Recebimiento.row_of f
  | Stage.Hulling f => Trillado.row_of f
  | Stage.Profiling f =>
      Perfilado.row_of f
        (Spec.husk_loss_fraction (Perfilado.muestra_pergamino f)
           (Perfilado.muestra_trillado f))
  end.

(** Every row of the target worksheet, the header included, has as many
    cells as the row the stage appends: a row read back after the append is
    then neither padded nor the cause of padding. *)
Definition same_width (st : store) (s : Stage.submission) : Prop :=
  Forall (fun r : row => List.length r = List.length (appended s))
    (rows_of st (Stage.target s)).

(** The key under which a stage echoes the identifier. *)
Definition id_field (s : Stage.submission) : string :=
  match s with
  | Stage.Receiving _ => "id_recibimiento"
  | Stage.Hulling _ => "id_trillado"
  | Stage.Profiling _ => "id_trillado"
  end.

End Chain.

(** * Theorems *)

(** ** Strings *)

Lemma replace_dash_without_dashes (s : string) :
  replace "-" "" s = Spec.without_dashes s.
Proof.
  unfold replace.
  induction s as [|c s IH]; [reflexivity|].
  cbn [replace_scan Spec.without_dashes startswith String.length Nat.sub].
  rewrite andb_true_r, Ascii.eqb_sym.
  destruct (Ascii.eqb c "-"); cbn; now rewrite IH.
Qed.


(** A string is the string of its characters. *)
Lemma join_chars (s : string) : join (chars s) = s.
Proof.
  induction s as [|b s IH]; [reflexivity|].
  cbn [chars]. destruct (chars s) as [|c cs]; cbn in *; [now subst|].
  destruct (continues c); cbn; now rewrite IH.
Qed.

(** The characters of a prefix made of whole characters are those
    characters. *)
Lemma chars_join_firstn (s : string) (n : nat) :
  chars (join (firstn n (chars s))) = firstn n (chars s).
Proof.
  revert n. induction s as [|b s IH]; intros n; [now destruct n|].
  cbn [chars]. destruct (chars s) as [|c cs] eqn:E.
  - destruct n as [|[|n]]; reflexivity.
  - destruct (continues c) eqn:C.
    + destruct n as [|n]; [reflexivity|].
      specialize (IH (S n)). cbn [firstn join] in *.
      change (String b c ++ join (firstn n cs))
        with (String b (c ++ join (firstn n cs))).
      cbn [chars]. rewrite IH. now rewrite C.
    + destruct n as [|n]; [reflexivity|].
      specialize (IH n). cbn [firstn join].
      change (String b "" ++ join (firstn n (c :: cs)))
        with (String b (join (firstn n (c :: cs)))).
      cbn [chars]. rewrite IH.
      destruct n as [|n]; [reflexivity|]. cbn [firstn]. now rewrite C.
Qed.


Lemma slice_to_short (n : nat) (s : string) :
  (List.length (chars s) <= n)%nat -> slice_to n s = s.
Proof.
  intros H. unfold slice_to. rewrite firstn_all2 by assumption.
  apply join_chars.
Qed.

Lemma slice_to_chars (n : nat) (s : string) :
  List.length (chars (slice_to n s)) = Nat.min n (List.length (chars s)).
Proof.
  unfold slice_to. now rewrite chars_join_firstn, length_firstn.
Qed.

Lemma slice_to_idempotent (n : nat) (s : string) :
  slice_to n (slice_to n s) = slice_to n s.
Proof.
  apply slice_to_short. rewrite slice_to_chars. apply Nat.le_min_l.
Qed.

Example upper_lengthens : upper (slice_to 3 "ßab") = "SSAB".
Proof. reflexivity. Qed.

Example slice_counts_characters : slice_to 3 "ñandú" = "ñan".
Proof. reflexivity. Qed.

Example receiving_id_beyond_ascii :
  Recebimiento.id_recibimiento "2024-03-05" "ñandú" "Época" "b12"
  = "20240305ÑANÉPO-B12".
Proof. reflexivity. Qed.




(** ** Reading key columns *)

Lemma contains_In (x : string) (l : list string) :
  contains x l = true <-> In x l.
Proof.
  unfold contains. rewrite existsb_exists. split.
  - intros (y & Hy & E). apply String.eqb_eq in E. now subst.
  - intros H. exists x. split; [assumption | apply String.eqb_refl].
Qed.

Lemma contains_false (x : string) (l : list string) :
  contains x l = false <-> ~ In x l.
Proof.
  rewrite <- contains_In. destruct (contains x l); split; congruence.
Qed.

Lemma comprehension_first (rows : list (list string)) :
  Forall (fun r => r <> []) rows ->
  comprehension first rows = Ok (Spec.column 0 rows).
Proof.
  induction 1 as [|r rows Hr _ IH]; [reflexivity|].
  destruct r as [|c r]; [contradiction|].
  cbn. now rewrite IH.
Qed.

Lemma last_rev {A : Type} (l : list A) :
  last l = match rev l with a :: _ => Ok a | [] => Raise IndexError end.
Proof.
  induction l as [|a l IH]; [reflexivity|].
  destruct l as [|b l].
  - reflexivity.
  - change (last (a :: b :: l)) with (last (b :: l)). rewrite IH.
    change (rev (a :: b :: l)) with (rev (b :: l) ++ [a])%list.
    destruct (rev (b :: l)) eqn:E; [|reflexivity].
    apply (f_equal (@List.length A)) in E.
    rewrite length_rev in E. discriminate.
Qed.

Lemma comprehension_last (rows : list (list string)) :
  Forall (fun r => r <> []) rows ->
  comprehension last rows = Ok (Spec.last_column rows).
Proof.
  induction 1 as [|r rows Hr _ IH]; [reflexivity|].
  cbn [comprehension]. rewrite IH, last_rev.
  unfold Spec.last_column. cbn [flat_map].
  destruct (rev r) eqn:E; [|reflexivity].
  apply (f_equal (@rev string)) in E. rewrite rev_involutive in E.
  contradiction.
Qed.

(** The guarded comprehension [[r[i] for r in rows if len(r) > i]] never
    raises. *)
Lemma comprehension_item_guarded (i : nat) (rows : list (list string)) :
  comprehension (fun r => item r i)
    (filter (fun r => (i <? List.length r)%nat) rows)
  = Ok (Spec.column i rows).
Proof.
  induction rows as [|r rows IH]; [reflexivity|].
  cbn [filter Spec.column flat_map].
  destruct (i <? List.length r)%nat eqn:E.
  - apply Nat.ltb_lt in E.
    cbn [comprehension]. unfold item at 1.
    destruct (nth_error r i) eqn:N.
    + cbn [bind]. rewrite IH. reflexivity.
    + apply nth_error_None in N. lia.
  - apply Nat.ltb_ge in E.
    destruct (nth_error r i) eqn:N.
    + assert (nth_error r i <> None) as N' by congruence.
      apply nth_error_Some in N'. lia.
    + exact IH.
Qed.

(** [c(rows[1:]) if len(rows) > 1 else []] is [c(rows[1:])] when [c] of the
    empty list is the empty list. *)
Lemma after_header {A B : Type} (c : list A -> outcome (list B)) (rows : list A) :
  c [] = Ok [] ->
  (if (1 <? List.length rows)%nat then c (from1 rows) else Ok []) = c (tl rows).
Proof.
  intros H. destruct rows as [|h [|r rows]]; cbn; auto.
Qed.

Lemma no_empty_row_text (st : store) (t : table) :
  Spec.no_empty_row t ->
  Forall (fun r => r <> []) (map (map (cell_text st)) t).
Proof.
  intros H. apply Forall_map. revert H. apply Forall_impl.
  intros [|c r] Hr; [contradiction | discriminate].
Qed.

Lemma map_tl {A B : Type} (f : A -> B) (l : list A) : map f (tl l) = tl (map f l).
Proof.
  destruct l; reflexivity.
Qed.

Lemma existing_ids_readable (st : store) :
  Spec.no_empty_row (recebimiento_rows st) ->
  Recebimiento.existing_ids st WsRecebimiento
  = Ok (Spec.column 0 (get_all_values st WsRecebimiento)).
Proof.
  intros H. unfold Recebimiento.existing_ids.
  apply comprehension_first, no_empty_row_text, H.
Qed.

Lemma recibimiento_ids_readable (st : store) :
  Spec.no_empty_row (Spec.records (recebimiento_rows st)) ->
  Trillado.recibimiento_ids st
  = Ok (Spec.column 0 (Spec.records (get_all_values st WsRecebimiento))).
Proof.
  intros H. unfold Trillado.recibimiento_ids.
  change (get_sheet "Recebimiento") with (Ok WsRecebimiento).
  cbn [bind]. cbv zeta. rewrite (after_header (comprehension first)) by reflexivity.
  unfold Spec.records, get_all_values in *. rewrite <- map_tl.
  apply comprehension_first, no_empty_row_text, H.
Qed.

Lemma existing_ids_trillado_readable (st : store) :
  Spec.no_empty_row (Spec.records (trillado_rows st)) ->
  Trillado.existing_ids_trillado st WsTrillado
  = Ok (Spec.last_column (Spec.records (get_all_values st WsTrillado))).
Proof.
  intros H. unfold Trillado.existing_ids_trillado.
  cbv zeta. rewrite (after_header (comprehension last)) by reflexivity.
  unfold Spec.records, get_all_values in *. rewrite <- map_tl.
  apply comprehension_last, no_empty_row_text, H.
Qed.

Lemma existing_ids_perfilado_readable (st : store) :
  Spec.no_empty_row (Spec.records (perfilado_rows st)) ->
  Perfilado.existing_ids_perfilado st WsPerfilado
  = Ok (Spec.column 0 (Spec.records (get_all_values st WsPerfilado))).
Proof.
  intros H. unfold Perfilado.existing_ids_perfilado.
  cbv zeta. rewrite (after_header (comprehension first)) by reflexivity.
  unfold Spec.records, get_all_values in *. rewrite <- map_tl.
  apply comprehension_first, no_empty_row_text, H.
Qed.

Lemma id_trillado_options_total (st : store) :
  Perfilado.id_trillado_options st
  = Ok (Spec.column 5 (Spec.records (get_all_values st WsTrillado))).
Proof.
  unfold Perfilado.id_trillado_options.
  change (get_sheet "Trillado") with (Ok WsTrillado). cbn [bind]. cbv zeta.
  rewrite (after_header
             (fun rows => comprehension (fun r => item r 5)
                (filter (fun r => (5 <? List.length r)%nat) rows)))
    by reflexivity.
  apply comprehension_item_guarded.
Qed.

(** ** The husk loss never raises *)

Lemma perda_casca_total (p h : float) :
  Perfilado.perda_casca p h = Ok (Spec.husk_loss_fraction p h).
Proof.
  unfold Perfilado.perda_casca, Spec.husk_loss_fraction, truediv.
  destruct (is_zero p); reflexivity.
Qed.

(** ** What each POST handler returns on a readable worksheet *)

Lemma submit_form_run (st : store) (f : Recebimiento.form) :
  Spec.no_empty_row (recebimiento_rows st) ->
  let id := Recebimiento.id_of f in
  let dup := contains id (Spec.column 0 (get_all_values st WsRecebimiento)) in
  Recebimiento.submit_form st f
  = Ok (if dup then st else append_row st WsRecebimiento (Recebimiento.row_of f),
        {| template := "recebimiento.html";
           msg := Some (if dup then "❌ Ya esta registrado! ID: " ++ id
                        else "✅ Registered successfully! ID: " ++ id);
           last_submission :=
             Some (("id_recibimiento", VStr id) :: Recebimiento.fields_of f);
           defaults := Recebimiento.fields_of f;
           lists := [] |}).
Proof.
  intros H id dup. unfold Recebimiento.submit_form.
  change (get_sheet "Recebimiento") with (Ok WsRecebimiento). cbn [bind].
  rewrite (existing_ids_readable st H). cbn [bind].
  fold id. fold dup. destruct dup; reflexivity.
Qed.

Lemma trillado_submit_form_run (st : store) (f : Trillado.form) :
  Spec.no_empty_row (Spec.records (recebimiento_rows st)) ->
  Spec.no_empty_row (Spec.records (trillado_rows st)) ->
  let id := Trillado.id_of f in
  let dup :=
    contains id (Spec.last_column (Spec.records (get_all_values st WsTrillado))) in
  Trillado.trillado_submit_form st f
  = Ok (if dup then st else append_row st WsTrillado (Trillado.row_of f),
        {| template := "trillado.html";
           msg := Some (if dup then "❌ Ya esta registrado! ID Trillado: " ++ id
                        else "✅ Trillado registrado! ID Trillado: " ++ id);
           last_submission :=
             Some (Trillado.fields_of f ++ [ ("id_trillado", VStr id) ])%list;
           defaults := Trillado.fields_of f;
           lists :=
             [ ("recibimiento_ids",
                Spec.column 0 (Spec.records (get_all_values st WsRecebimiento))) ] |}).
Proof.
  intros Hup H id dup. unfold Trillado.trillado_submit_form.
  rewrite (recibimiento_ids_readable st Hup). cbn [bind].
  change (get_sheet "Trillado") with (Ok WsTrillado). cbn [bind].
  rewrite (existing_ids_trillado_readable st H). cbn [bind].
  fold id. fold dup. destruct dup; reflexivity.
Qed.

Lemma perfilado_submit_form_run (st : store) (f : Perfilado.form) :
  Spec.no_empty_row (Spec.records (perfilado_rows st)) ->
  let id := Perfilado.id_trillado f in
  let loss :=
    Spec.husk_loss_fraction (Perfilado.muestra_pergamino f)
      (Perfilado.muestra_trillado f) in
  let dup :=
    contains id (Spec.column 0 (Spec.records (get_all_values st WsPerfilado))) in
  Perfilado.perfilado_submit_form st f
  = Ok (if dup then st else append_row st WsPerfilado (Perfilado.row_of f loss),
        {| template := "perfilado.html";
           msg := Some (if dup then "❌ Ya esta registrado! ID Trillado: " ++ id
                        else "✅ Perfilado registrado! ID Trillado: " ++ id);
           last_submission := Some (Perfilado.fields_of f);
           defaults := Perfilado.fields_of f;
           lists :=
             [ ("id_trillado_options",
                Spec.column 5 (Spec.records (get_all_values st WsTrillado))) ] |}).
Proof.
  intros H id loss dup. unfold Perfilado.perfilado_submit_form.
  rewrite perda_casca_total. cbn [bind].
  rewrite id_trillado_options_total. cbn [bind].
  change (get_sheet "Perfilado") with (Ok WsPerfilado). cbn [bind].
  rewrite (existing_ids_perfilado_readable st H). cbn [bind].
  fold id. fold loss. fold dup. destruct dup; reflexivity.
Qed.

Lemma rows_of_append_row_same (st : store) (ws : worksheet) (r : row) :
  rows_of (append_row st ws r) ws = (rows_of st ws ++ [r])%list.
Proof.
  destruct ws; reflexivity.
Qed.

Lemma rows_of_append_row_other (st : store) (ws ws' : worksheet) (r : row) :
  ws' <> ws -> rows_of (append_row st ws r) ws' = rows_of st ws'.
Proof.
  destruct ws, ws'; intros H; try reflexivity; contradiction.
Qed.

Lemma mentions_suffix (a id : string) : Spec.mentions (a ++ id) id.
Proof.
  exists a, "". f_equal. induction id as [|c id IH]; cbn; congruence.
Qed.

(** ** Duplicate guard *)

Lemma header_and_records {A : Type} (l : list A) :
  l = (firstn 1 l ++ Spec.records l)%list.
Proof.
  destruct l; reflexivity.
Qed.

(** With row 0 out of the way, the column a handler scans holds the
    identifier exactly when the rows after the header do. *)
Lemma record_keys_guard (st : store) (s : Stage.submission) :
  Stage.header_differs st s ->
  In (Stage.derived_id s) (Stage.key_column st s)
  <-> In (Stage.derived_id s) (Stage.record_keys st s).
Proof.
  destruct s as [f|f|f]; cbn [Stage.header_differs Stage.key_column
                              Stage.record_keys Stage.derived_id];
    intros H; [|reflexivity..].
  rewrite (header_and_records (get_all_values st WsRecebimiento)) at 1.
  unfold Spec.column at 1. rewrite flat_map_app, in_app_iff.
  split; [intros [I|I]; [contradiction | exact I] | now right].
Qed.

(** Both branches of a handler's guard, once the handler is rewritten to its
    answer: the identifier is in the key column, or it is not.  [G] relates
    the column the handler scans to the rows after the header. *)
Ltac settle_guard G :=
  cbv zeta;
  let E := fresh "E" in
  destruct (contains _ _) eqn:E;
  do 4 eexists; (split; [reflexivity|]); cbn [msg last_submission];
  (split; [reflexivity|]); (split; [reflexivity|]); (split; [reflexivity|]);
  [ split;
    [ intros _; split; reflexivity
    | let N := fresh "N" in
      intros N; apply contains_In in E; apply (proj1 G) in E; contradiction ]
  | split;
    [ let I := fresh "I" in
      intros I; apply (proj2 G) in I; apply contains_In in I; congruence |];
    intros _; split; [apply rows_of_append_row_same|];
    split; [intros ws; apply rows_of_append_row_other|];
    split; [reflexivity|]; split; [reflexivity | apply mentions_suffix] ].

(** C3: at each of the three stages, on a worksheet whose rows all have the
    key cell the handler reads and, for Receiving, whose row 0 does not
    begin with the identifier, the attempted record is echoed back as the
    last submission; when the derived identifier is already in the key
    column of the rows after the header nothing is appended and a rejection
    message is produced; when it is not, exactly one row, the prepared one,
    is appended to the target worksheet (and none elsewhere) and a success
    message containing the identifier is produced. *)
Theorem duplicate_rejected_else_appended (st : store) (s : Stage.submission) :
  Stage.readable st s ->
  Stage.header_differs st s ->
  exists st' r m d,
    Stage.handle st s = Ok (st', r)
    /\ msg r = Some m
    /\ last_submission r = Some d
    /\ map snd d = Stage.attempted s
    /\ (In (Stage.derived_id s) (Stage.record_keys st s) ->
        st' = st /\ startswith "❌" m = true)
    /\ (~ In (Stage.derived_id s) (Stage.record_keys st s) ->
        rows_of st' (Stage.target s)
        = (rows_of st (Stage.target s) ++ [Chain.appended s])%list
        /\ (forall ws, ws <> Stage.target s -> rows_of st' ws = rows_of st ws)
        /\ number_text st' = number_text st
        /\ startswith "✅" m = true
        /\ Spec.mentions m (Stage.derived_id s)).
Proof.
  intros H Hh. pose proof (record_keys_guard st s Hh) as G.
  destruct s as [f|f|f]; cbn [Stage.handle Stage.derived_id Stage.key_column
                              Stage.record_keys Stage.target Stage.attempted
                              Stage.readable Chain.appended] in *.
  - rewrite (submit_form_run st f H). settle_guard G.
  - destruct H as [Hup H].
    rewrite (trillado_submit_form_run st f Hup H). settle_guard G.
  - rewrite (perfilado_submit_form_run st f H). settle_guard G.
Qed.

Lemma get_all_values_append_row (st : store) (ws : worksheet) (r : row) :
  get_all_values (append_row st ws r) ws
  = (get_all_values st ws ++ [map (cell_text st) r])%list.
Proof.
  unfold get_all_values. rewrite rows_of_append_row_same, map_app.
  destruct ws; reflexivity.
Qed.

Lemma column_app (i : nat) (a b : list (list string)) :
  Spec.column i (a ++ b)%list = (Spec.column i a ++ Spec.column i b)%list.
Proof.
  apply flat_map_app.
Qed.

Lemma occurrences_snoc (k id : string) (keys : list string) :
  Spec.occurrences k (keys ++ [id])%list
  = (Spec.occurrences k keys + if string_dec id k then 1 else 0)%nat.
Proof.
  unfold Spec.occurrences. rewrite count_occ_app. cbn.
  destruct (string_dec id k); reflexivity.
Qed.

Lemma occurrences_absent (k : string) (keys : list string) :
  ~ In k keys -> Spec.occurrences k keys = 0%nat.
Proof.
  intros H. now apply count_occ_not_In.
Qed.

Lemma no_empty_row_snoc (t : table) (r : row) :
  Spec.no_empty_row t -> r <> [] -> Spec.no_empty_row (t ++ [r])%list.
Proof.
  intros Ht Hr. apply Forall_app. split; [assumption|].
  constructor; [assumption | constructor].
Qed.

(** C6: starting from a Recebimiento worksheet whose rows all have a first
    cell and in which the derived identifier is absent, submitting two forms
    with the same date, supplier, origin and lot appends one row on the first
    submission and rejects the second as a duplicate, so that exactly one row
    carries the identifier. *)
Theorem receiving_resubmission_rejected
  (st : store) (f1 f2 : Recebimiento.form) :
  Spec.no_empty_row (recebimiento_rows st) ->
  Recebimiento.fecha f2 = Recebimiento.fecha f1 ->
  Recebimiento.provedor f2 = Recebimiento.provedor f1 ->
  Recebimiento.origen f2 = Recebimiento.origen f1 ->
  Recebimiento.lote_bolsa f2 = Recebimiento.lote_bolsa f1 ->
  ~ In (Recebimiento.id_of f1) (Spec.column 0 (get_all_values st WsRecebimiento)) ->
  exists st1 r1 m1 r2 m2,
    Recebimiento.submit_form st f1 = Ok (st1, r1)
    /\ msg r1 = Some m1 /\ startswith "✅" m1 = true
    /\ recebimiento_rows st1
       = (recebimiento_rows st ++ [Recebimiento.row_of f1])%list
    /\ Recebimiento.submit_form st1 f2 = Ok (st1, r2)
    /\ msg r2 = Some m2 /\ startswith "❌" m2 = true
    /\ Spec.occurrences (Recebimiento.id_of f1)
         (Spec.column 0 (get_all_values st1 WsRecebimiento)) = 1%nat.
Proof.
  intros Hrows Hd Hs Ho Hl Habs.
  assert (Recebimiento.id_of f2 = Recebimiento.id_of f1) as Hid
    by (unfold Recebimiento.id_of; congruence).
  pose proof (submit_form_run st f1 Hrows) as R1. cbv zeta in R1.
  apply contains_false in Habs. rewrite Habs in R1.
  set (st1 := append_row st WsRecebimiento (Recebimiento.row_of f1)) in *.
  assert (Spec.no_empty_row (recebimiento_rows st1)) as Hrows1
    by (apply no_empty_row_snoc; [assumption | discriminate]).
  assert (Spec.column 0 (get_all_values st1 WsRecebimiento)
          = (Spec.column 0 (get_all_values st WsRecebimiento)
               ++ [Recebimiento.id_of f1])%list) as Hcol
    by (unfold st1; rewrite get_all_values_append_row, column_app; reflexivity).
  pose proof (submit_form_run st1 f2 Hrows1) as R2. cbv zeta in R2.
  rewrite Hid, Hcol in R2.
  assert (contains (Recebimiento.id_of f1)
            (Spec.column 0 (get_all_values st WsRecebimiento)
               ++ [Recebimiento.id_of f1])%list = true) as Hdup
    by (apply contains_In, in_or_app; right; left; reflexivity).
  rewrite Hdup in R2.
  do 5 eexists.
  split; [exact R1|]. split; [reflexivity|]. split; [reflexivity|].
  split; [reflexivity|]. split; [exact R2|].
  split; [reflexivity|]. split; [reflexivity|].
  rewrite Hcol, occurrences_snoc.
  rewrite occurrences_absent by (now apply contains_false).
  destruct (string_dec _ _); [reflexivity | contradiction].
Qed.

(** ** Profiling reuses the hulling identifier *)

Lemma records_snoc {A : Type} (rows : list A) (r : A) :
  Spec.records (rows ++ [r])%list
  = match rows with
    | [] => []
    | _ :: _ => (Spec.records rows ++ [r])%list
    end.
Proof.
  destruct rows; reflexivity.
Qed.

(** C7: the Profiling handler mints no identifier.  On a Perfilado worksheet
    whose rows after the header all have a first cell, the echoed identifier
    is the posted hulling identifier [h]; the submission is refused exactly
    when [h] is in the first column of the rows after the header, and
    otherwise the appended row has [h] itself as its column 0; so an
    identifier that occurs at most once among the records still does after
    the submission. *)
Theorem profiling_reuses_hulling_id (st : store) (f : Perfilado.form) :
  Spec.no_empty_row (Spec.records (perfilado_rows st)) ->
  exists st' r d,
    Perfilado.perfilado_submit_form st f = Ok (st', r)
    /\ last_submission r = Some d
    /\ dict_get d "id_trillado" = Some (VStr (Perfilado.id_trillado f))
    /\ (In (Perfilado.id_trillado f)
          (Spec.column 0 (Spec.records (get_all_values st WsPerfilado))) ->
        st' = st)
    /\ (~ In (Perfilado.id_trillado f)
          (Spec.column 0 (Spec.records (get_all_values st WsPerfilado))) ->
        exists cells,
          perfilado_rows st'
          = (perfilado_rows st ++ [VStr (Perfilado.id_trillado f) :: cells])%list)
    /\ (forall k,
          (Spec.occurrences k
             (Spec.column 0 (Spec.records (get_all_values st WsPerfilado))) <= 1)%nat ->
          (Spec.occurrences k
             (Spec.column 0 (Spec.records (get_all_values st' WsPerfilado))) <= 1)%nat).
Proof.
  intros H. rewrite (perfilado_submit_form_run st f H). cbv zeta.
  destruct (contains _ _) eqn:E; do 3 eexists;
    (split; [reflexivity|]); cbn [last_submission];
    (split; [reflexivity|]); (split; [reflexivity|]).
  - split; [reflexivity|]. split; [|auto].
    intros N. apply contains_In in E. contradiction.
  - split; [intros I; apply contains_In in I; congruence|].
    split; [intros _; eexists; reflexivity|].
    intros k Hk. rewrite get_all_values_append_row, records_snoc.
    destruct (get_all_values st WsPerfilado) as [|hdr rows] eqn:G.
    + cbn. lia.
    + cbn [Spec.records tl] in *. rewrite column_app.
      change (Spec.column 0 [map (cell_text st) (Perfilado.row_of f _)])
        with [Perfilado.id_trillado f].
      rewrite occurrences_snoc.
      destruct (string_dec (Perfilado.id_trillado f) k) as [<-|]; [|lia].
      rewrite occurrences_absent by (now apply contains_false). lia.
Qed.

(** ** No referential check against the upstream worksheet *)

Lemma key_column_target (st1 st2 : store) (s : Stage.submission) :
  rows_of st1 (Stage.target s) = rows_of st2 (Stage.target s) ->
  number_text st1 = number_text st2 ->
  Stage.key_column st1 s = Stage.key_column st2 s.
Proof.
  intros Hrows Htext.
  assert (get_all_values st1 (Stage.target s) = get_all_values st2 (Stage.target s))
    as G.
  { unfold get_all_values. rewrite Hrows. apply map_ext. intros r.
    apply map_ext. intros [x|x]; cbn; [reflexivity | now rewrite Htext]. }
  destruct s; cbn [Stage.key_column Stage.target] in *; now rewrite G.
Qed.

(** Two runs of a handler on worksheets with the same key column [K] and the
    same target rows [R] take the same branch of the guard. *)
Ltac same_guard K R :=
  cbv zeta; rewrite <- K;
  let E := fresh "E" in
  destruct (contains _ _) eqn:E; do 4 eexists;
  (split; [reflexivity|]); (split; [reflexivity|]); (split; [reflexivity|]);
  [ split; [exact R|]; split; [reflexivity|];
    let N := fresh "N" in intros N; apply contains_In in E; contradiction
  | split; [now rewrite !rows_of_append_row_same, R|];
    split; [let I := fresh "I" in intros I; apply contains_In in I; congruence|];
    intros _; eexists; apply rows_of_append_row_same ].

(** C9: at the Hulling and Profiling POST endpoints (as at the Receiving
    one) the upstream worksheet has no say in acceptance.  Two spreadsheets
    that agree on the target worksheet, whatever their upstream worksheets
    hold, answer a submission with the same message and leave the same target
    rows; and the row is appended whenever the derived identifier is absent
    from the target's key column, whether or not the chosen upstream
    identifier exists upstream. *)
Theorem acceptance_ignores_upstream (st1 st2 : store) (s : Stage.submission) :
  rows_of st1 (Stage.target s) = rows_of st2 (Stage.target s) ->
  number_text st1 = number_text st2 ->
  Stage.readable st1 s ->
  Stage.readable st2 s ->
  exists st1' r1 st2' r2,
    Stage.handle st1 s = Ok (st1', r1)
    /\ Stage.handle st2 s = Ok (st2', r2)
    /\ msg r1 = msg r2
    /\ rows_of st1' (Stage.target s) = rows_of st2' (Stage.target s)
    /\ (In (Stage.derived_id s) (Stage.key_column st1 s) ->
        rows_of st1' (Stage.target s) = rows_of st1 (Stage.target s))
    /\ (~ In (Stage.derived_id s) (Stage.key_column st1 s) ->
        exists row,
          rows_of st1' (Stage.target s)
          = (rows_of st1 (Stage.target s) ++ [row])%list).
Proof.
  intros Hrows Htext H1 H2.
  pose proof (key_column_target st1 st2 s Hrows Htext) as K.
  destruct s as [f|f|f]; cbn [Stage.handle Stage.derived_id Stage.key_column
                              Stage.target Stage.readable] in *.
  - rewrite (submit_form_run st1 f H1), (submit_form_run st2 f H2).
    same_guard K Hrows.
  - destruct H1 as [U1 H1], H2 as [U2 H2].
    rewrite (trillado_submit_form_run st1 f U1 H1),
      (trillado_submit_form_run st2 f U2 H2).
    same_guard K Hrows.
  - rewrite (perfilado_submit_form_run st1 f H1),
      (perfilado_submit_form_run st2 f H2).
    same_guard K Hrows.
Qed.

(** ** Selection list of the Profiling form *)

Lemma column_map_filter (i : nat) (rows : list (list string)) :
  Spec.column i rows
  = map (fun r => nth i r "") (filter (fun r => (i <? List.length r)%nat) rows).
Proof.
  induction rows as [|r rows IH]; [reflexivity|].
  cbn [Spec.column flat_map filter].
  destruct (i <? List.length r)%nat eqn:E.
  - apply Nat.ltb_lt in E. cbn [map]. fold (Spec.column i rows). rewrite <- IH.
    destruct (nth_error r i) eqn:N.
    + now rewrite (nth_error_nth r i "" N).
    + apply nth_error_None in N. lia.
  - apply Nat.ltb_ge in E. fold (Spec.column i rows). rewrite <- IH.
    apply nth_error_None in E. now rewrite E.
Qed.

Lemma profiling_selection_skips (hdr r : list string) (before after : list (list string)) :
  (List.length r < 6)%nat ->
  Spec.profiling_selection (hdr :: before ++ r :: after)%list
  = Spec.profiling_selection (hdr :: before ++ after)%list.
Proof.
  intros H. unfold Spec.profiling_selection, Spec.records. cbn [tl].
  rewrite !filter_app. cbn [filter].
  destruct (5 <? List.length r)%nat eqn:E; [|reflexivity].
  apply Nat.ltb_lt in E. lia.
Qed.

(** C8: for every content of the Trillado worksheet, building the selection
    list of the Profiling form never raises; the list is, in order, the
    entry at index 5 of every row after the header that has more than 5
    columns, so a row with fewer than 6 columns contributes nothing; the
    pre-selected default is the first element of the list; and on an empty
    or header-only worksheet the list is empty and the default is the empty
    string. *)
Theorem profiling_selection_list (st : store) :
  exists r,
    Perfilado.perfilado_form_page st = Ok r
    /\ Perfilado.id_trillado_options st
       = Ok (Spec.profiling_selection (get_all_values st WsTrillado))
    /\ lists r
       = [ ("id_trillado_options",
            Spec.profiling_selection (get_all_values st WsTrillado)) ]
    /\ dict_get (defaults r) "id_trillado"
       = Some (VStr (hd "" (Spec.profiling_selection (get_all_values st WsTrillado))))
    /\ (forall hdr row before after,
          (List.length row < 6)%nat ->
          Spec.profiling_selection (hdr :: before ++ row :: after)%list
          = Spec.profiling_selection (hdr :: before ++ after)%list)
    /\ ((List.length (trillado_rows st) <= 1)%nat ->
        Spec.profiling_selection (get_all_values st WsTrillado) = []
        /\ dict_get (defaults r) "id_trillado" = Some (VStr "")).
Proof.
  assert (Perfilado.id_trillado_options st
          = Ok (Spec.profiling_selection (get_all_values st WsTrillado))) as E
    by (rewrite id_trillado_options_total; f_equal; apply column_map_filter).
  unfold Perfilado.perfilado_form_page. rewrite E. cbn [bind].
  eexists. split; [reflexivity|]. split; [reflexivity|].
  cbn [lists defaults]. split; [reflexivity|].
  split; [cbn; now destruct (Spec.profiling_selection _)|].
  split; [intros; now apply profiling_selection_skips|].
  intros L.
  assert (Spec.profiling_selection (get_all_values st WsTrillado) = []) as ->.
  { unfold get_all_values, rows_of.
    destruct (trillado_rows st) as [|hdr [|row rows]]; cbn in *; [reflexivity.. | lia]. }
  split; reflexivity.
Qed.

(** ** Husk loss *)

Lemma is_zero_zero (p : float) : is_zero p = true <-> exists s, p = S754_zero s.
Proof.
  split.
  - destruct p as [s|[|]| |[|] m e]; try discriminate. now exists s.
  - intros (s & ->). reflexivity.
Qed.

(** The half-even quotient is within half a unit of the exact one. *)
Lemma nearest_int_close (n d : Z) :
  (0 < d)%Z -> (Z.abs (2 * (n - nearest_int n d * d)) <= d)%Z.
Proof.
  intros Hd. unfold nearest_int.
  pose proof (Z.div_mod n d ltac:(lia)) as E.
  pose proof (Z.mod_pos_bound n d Hd) as B.
  generalize dependent (n mod d)%Z. generalize dependent (n / d)%Z.
  intros q r E B.
  assert (q * d = d * q)%Z as M by apply Z.mul_comm.
  assert ((q + 1) * d = d * q + d)%Z as M' by ring.
  destruct (2 * r ?= d)%Z eqn:C.
  - apply Z.compare_eq in C. destruct (Z.even q); apply Z.abs_le; lia.
  - rewrite Z.compare_lt_iff in C. apply Z.abs_le; lia.
  - rewrite Z.compare_gt_iff in C. rewrite M'. apply Z.abs_le; lia.
Qed.

Example round_2_675 : round (Spec.decimal 2675 1000) 2 = Spec.decimal 267 100.
Proof. reflexivity. Qed.

Example round_tie_0_125 : round (Spec.decimal 125 1000) 2 = Spec.decimal 12 100.
Proof. reflexivity. Qed.

Example round_tie_0_375 : round (Spec.decimal 375 1000) 2 = Spec.decimal 38 100.
Proof. reflexivity. Qed.

(** C4 as the spec states it fails at its own example: for samples of 100
    and 90 the handler's value is not the float [0.1]. *)
Lemma husk_loss_100_90_is_not_0_1 :
  Perfilado.perda_casca (of_Z 100) (of_Z 90) <> Ok (Spec.decimal 1 10).
Proof.
  vm_compute. discriminate.
Qed.

(** C4, amended: the husk loss never raises; it is [0] when the parchment
    sample compares equal to [0] (whatever the hulled sample, [0] included)
    and otherwise [1] minus the ratio rounded to 2 decimal places, the
    rounding applied to the ratio before the subtraction.  For samples of
    100 and 90 this is the float [1 - 0.9], that is 7205759403792792 * 2^-56
    (0.09999999999999998), two units in the last place below the float [0.1]
    and within 2^-55 of one tenth. *)
Theorem husk_loss_fraction_value (p h : float) :
  Perfilado.perda_casca p h = Ok (Spec.husk_loss_fraction p h)
  /\ (is_zero p = true -> Perfilado.perda_casca p h = Ok (S754_zero false))
  /\ (is_zero p = false ->
      Perfilado.perda_casca p h
      = Ok (sub (of_Z 1) (round (SFdiv prec emax h p) 2)))
  /\ Perfilado.perda_casca (of_Z 0) (of_Z 0) = Ok (S754_zero false)
  /\ Perfilado.perda_casca (of_Z 100) (of_Z 90)
     = Ok (sub (of_Z 1) (Spec.decimal 9 10))
  /\ sub (of_Z 1) (Spec.decimal 9 10) = S754_finite false 7205759403792792 (-56)
  /\ Spec.decimal 1 10 = S754_finite false 7205759403792794 (-56)
  /\ (0 < 2 ^ 56 - 10 * 7205759403792792 <= 5 * 2 ^ 2)%Z.
Proof.
  split; [apply perda_casca_total|].
  split; [intros Z; rewrite perda_casca_total; unfold Spec.husk_loss_fraction;
          now rewrite Z|].
  split; [intros Z; rewrite perda_casca_total; unfold Spec.husk_loss_fraction;
          now rewrite Z|].
  repeat split; vm_compute; congruence.
Qed.

(** C10: the husk loss is not clamped to [0, 1].  With a parchment sample of
    100 and a hulled sample of 110 it is negative; and whatever value the
    derivation gives, negative ones included, is the cell at index 7 of the
    row an accepted Profiling submission appends. *)
Theorem husk_loss_not_clamped :
  (exists p h v,
      is_zero p = false /\ SFltb p h = true
      /\ Perfilado.perda_casca p h = Ok v /\ SFltb v (of_Z 0) = true)
  /\ (forall st f v,
        Spec.no_empty_row (Spec.records (perfilado_rows st)) ->
        ~ In (Perfilado.id_trillado f)
            (Spec.column 0 (Spec.records (get_all_values st WsPerfilado))) ->
        Perfilado.perda_casca (Perfilado.muestra_pergamino f)
          (Perfilado.muestra_trillado f) = Ok v ->
        exists st' r row,
          Perfilado.perfilado_submit_form st f = Ok (st', r)
          /\ perfilado_rows st' = (perfilado_rows st ++ [row])%list
          /\ nth_error row 7 = Some (VNum v)).
Proof.
  split.
  - exists (of_Z 100), (of_Z 110), (S754_finite true 7205759403792800 (-56)).
    repeat split.
  - intros st f v H N V.
    rewrite perda_casca_total in V. injection V as <-.
    rewrite (perfilado_submit_form_run st f H). cbv zeta.
    apply contains_false in N. rewrite N.
    do 3 eexists. split; [reflexivity|]. split; reflexivity.
Qed.

(** ** Where the handlers part from the specification *)

(** C2, at a failing input: the Receiving check reads row 0 as well.  On a
    worksheet that has its header row only, a form whose derived identifier
    is spelled like the header's first cell is refused as a duplicate and
    nothing is appended, whereas the Hulling and Profiling checks skip their
    header row and accept the like submission. *)
Theorem receiving_check_reads_header_row :
  Recebimiento.id_of (Samples.lot "I" "d" "" "recibimiento") = "ID-RECIBIMIENTO"
  /\ List.length (get_all_values Samples.capital_headers WsRecebimiento) = 1%nat
  /\ (exists r,
        Recebimiento.submit_form Samples.capital_headers
          (Samples.lot "I" "d" "" "recibimiento")
        = Ok (Samples.capital_headers, r)
        /\ msg r = Some "❌ Ya esta registrado! ID: ID-RECIBIMIENTO")
  /\ (exists st' r,
        Trillado.trillado_submit_form Samples.capital_headers
          (Samples.batch "ID" "TRILLADO")
        = Ok (st', r)
        /\ trillado_rows st'
           = (trillado_rows Samples.capital_headers
                ++ [Trillado.row_of (Samples.batch "ID" "TRILLADO")])%list
        /\ msg r = Some "✅ Trillado registrado! ID Trillado: ID-TRILLADO")
  /\ (exists st' r,
        Perfilado.perfilado_submit_form Samples.capital_headers
          (Samples.profile "ID-TRILLADO" (of_Z 100) (of_Z 90))
        = Ok (st', r)
        /\ List.length (perfilado_rows st') = 2%nat
        /\ msg r = Some "✅ Perfilado registrado! ID Trillado: ID-TRILLADO").
Proof.
  split; [reflexivity|]. split; [reflexivity|].
  split; [eexists; split; reflexivity|].
  split; do 2 eexists; (split; [reflexivity|]); split; reflexivity.
Qed.

(** C5, at failing inputs: only the Profiling selection list skips short
    rows.  A row without cells makes the other key-column reads raise
    IndexError: the Receiving check on a worksheet whose only row is empty,
    and the Hulling selection list, the Hulling check and the Profiling check
    on a worksheet with an empty row after the header; the Profiling
    selection list over the same rows leaves the short ones out. *)
Theorem key_cell_of_empty_row_raises :
  (forall f, Recebimiento.submit_form Samples.blank f = Raise IndexError)
  /\ (forall today, Trillado.trillado_form_page Samples.gapped today = Raise IndexError)
  /\ (forall f, Trillado.trillado_submit_form Samples.gapped f = Raise IndexError)
  /\ (forall f, Trillado.trillado_submit_form Samples.gapped_trillado f
                = Raise IndexError)
  /\ (forall f, Perfilado.perfilado_submit_form Samples.gapped f = Raise IndexError)
  /\ Perfilado.id_trillado_options Samples.gapped = Ok [ "a-c" ].
Proof.
  split; [reflexivity|]. split; [reflexivity|]. split; [reflexivity|].
  split; [reflexivity|]. split; [|reflexivity].
  intros f. unfold Perfilado.perfilado_submit_form.
  rewrite perda_casca_total. reflexivity.
Qed.

(** ** The theorems at sample worksheets *)

Lemma headers_only_readable (s : Stage.submission) :
  Stage.readable Samples.headers_only s.
Proof.
  destruct s; cbn; repeat constructor; discriminate.
Defined.

Lemma with_roble_readable (s : Stage.submission) :
  Stage.readable Samples.with_roble s.
Proof.
  destruct s; cbn; repeat constructor; discriminate.
Defined.

Lemma duplicate_rejected_else_appended_witness :
  (Stage.readable Samples.headers_only (Stage.Receiving Samples.roble)
   /\ Stage.header_differs Samples.headers_only (Stage.Receiving Samples.roble)
   /\ ~ In (Stage.derived_id (Stage.Receiving Samples.roble))
          (Stage.record_keys Samples.headers_only (Stage.Receiving Samples.roble))
   /\ exists st' r m,
       Stage.handle Samples.headers_only (Stage.Receiving Samples.roble)
       = Ok (st', r)
       /\ recebimiento_rows st'
          = (recebimiento_rows Samples.headers_only
               ++ [Recebimiento.row_of Samples.roble])%list
       /\ msg r = Some m /\ startswith "✅" m = true)
  /\ (Stage.readable Samples.with_roble (Stage.Receiving Samples.roble)
      /\ Stage.header_differs Samples.with_roble (Stage.Receiving Samples.roble)
      /\ In (Stage.derived_id (Stage.Receiving Samples.roble))
           (Stage.record_keys Samples.with_roble (Stage.Receiving Samples.roble))
      /\ exists r m,
          Stage.handle Samples.with_roble (Stage.Receiving Samples.roble)
          = Ok (Samples.with_roble, r)
          /\ msg r = Some m /\ startswith "❌" m = true).
Proof.
  assert (Stage.header_differs Samples.headers_only (Stage.Receiving Samples.roble))
    as D1 by (intros [E|[]]; discriminate E).
  assert (Stage.header_differs Samples.with_roble (Stage.Receiving Samples.roble))
    as D2 by (intros [E|[]]; discriminate E).
  assert (~ In (Stage.derived_id (Stage.Receiving Samples.roble))
            (Stage.record_keys Samples.headers_only (Stage.Receiving Samples.roble)))
    as N by (intros []).
  assert (In (Stage.derived_id (Stage.Receiving Samples.roble))
            (Stage.record_keys Samples.with_roble (Stage.Receiving Samples.roble)))
    as I by (left; reflexivity).
  split.
  - split; [apply headers_only_readable|]. split; [exact D1|]. split; [exact N|].
    destruct (duplicate_rejected_else_appended Samples.headers_only
                (Stage.Receiving Samples.roble)
                (headers_only_readable _) D1)
      as (st' & r & m & d & E & M & _ & _ & _ & A).
    destruct (A N) as (R & _ & _ & S & _).
    exists st', r, m. split; [exact E|]. split; [exact R|]. split; [exact M | exact S].
  - split; [apply with_roble_readable|]. split; [exact D2|]. split; [exact I|].
    destruct (duplicate_rejected_else_appended Samples.with_roble
                (Stage.Receiving Samples.roble)
                (with_roble_readable _) D2)
      as (st' & r & m & d & E & M & _ & _ & J & _).
    destruct (J I) as (-> & S).
    exists r, m. split; [exact E|]. split; [exact M | exact S].
Defined.

Lemma receiving_resubmission_rejected_witness :
  Spec.no_empty_row (recebimiento_rows Samples.headers_only)
  /\ ~ In (Recebimiento.id_of Samples.roble)
         (Spec.column 0 (get_all_values Samples.headers_only WsRecebimiento))
  /\ exists st1 r1 m1 r2 m2,
      Recebimiento.submit_form Samples.headers_only Samples.roble = Ok (st1, r1)
      /\ msg r1 = Some m1 /\ startswith "✅" m1 = true
      /\ recebimiento_rows st1
         = (recebimiento_rows Samples.headers_only
              ++ [Recebimiento.row_of Samples.roble])%list
      /\ Recebimiento.submit_form st1 Samples.roble = Ok (st1, r2)
      /\ msg r2 = Some m2 /\ startswith "❌" m2 = true
      /\ Spec.occurrences (Recebimiento.id_of Samples.roble)
           (Spec.column 0 (get_all_values st1 WsRecebimiento)) = 1%nat.
Proof.
  assert (~ In (Recebimiento.id_of Samples.roble)
            (Spec.column 0 (get_all_values Samples.headers_only WsRecebimiento)))
    as N by (intros [E|[]]; discriminate E).
  split; [apply (headers_only_readable (Stage.Receiving Samples.roble))|].
  split; [exact N|].
  apply (receiving_resubmission_rejected Samples.headers_only
           Samples.roble Samples.roble);
    [apply (headers_only_readable (Stage.Receiving Samples.roble))
    | reflexivity | reflexivity | reflexivity | reflexivity | exact N].
Defined.

Lemma profiling_reuses_hulling_id_witness :
  Spec.no_empty_row (Spec.records (perfilado_rows Samples.headers_only))
  /\ exists st' r d,
      Perfilado.perfilado_submit_form Samples.headers_only
        (Samples.profile "20240305FINHUI-B12-G1" (of_Z 100) (of_Z 90))
      = Ok (st', r)
      /\ last_submission r = Some d
      /\ dict_get d "id_trillado" = Some (VStr "20240305FINHUI-B12-G1").
Proof.
  split; [constructor|].
  destruct (profiling_reuses_hulling_id Samples.headers_only
              (Samples.profile "20240305FINHUI-B12-G1" (of_Z 100) (of_Z 90)))
    as (st' & r & d & E & L & G & _); [constructor|].
  exists st', r, d. split; [exact E|]. split; [exact L | exact G].
Defined.

Lemma acceptance_ignores_upstream_witness :
  ~ In "20240305FINHUI-B12"
      (Spec.column 0 (Spec.records (get_all_values Samples.headers_only WsRecebimiento)))
  /\ In "20240305FINHUI-B12"
       (Spec.column 0 (Spec.records (get_all_values Samples.with_roble WsRecebimiento)))
  /\ exists st1' r1 st2' r2,
      Trillado.trillado_submit_form Samples.headers_only
        (Samples.batch "20240305FINHUI-B12" "G1") = Ok (st1', r1)
      /\ Trillado.trillado_submit_form Samples.with_roble
           (Samples.batch "20240305FINHUI-B12" "G1") = Ok (st2', r2)
      /\ msg r1 = msg r2
      /\ trillado_rows st1' = trillado_rows st2'.
Proof.
  split; [intros []|]. split; [left; reflexivity|].
  destruct (acceptance_ignores_upstream Samples.headers_only Samples.with_roble
              (Stage.Hulling (Samples.batch "20240305FINHUI-B12" "G1")))
    as (st1' & r1 & st2' & r2 & E1 & E2 & M & R & _);
    [reflexivity | reflexivity | apply headers_only_readable
    | apply with_roble_readable |].
  exists st1', r1, st2', r2.
  split; [exact E1|]. split; [exact E2|]. split; [exact M | exact R].
Defined.

Lemma husk_loss_fraction_value_witness :
  is_zero (S754_zero true) = true
  /\ Perfilado.perda_casca (S754_zero true) (of_Z 90) = Ok (S754_zero false)
  /\ is_zero (of_Z 100) = false
  /\ Perfilado.perda_casca (of_Z 100) (of_Z 90)
     = Ok (sub (of_Z 1) (round (SFdiv prec emax (of_Z 90) (of_Z 100)) 2)).
Proof.
  split; [reflexivity|].
  split; [apply (husk_loss_fraction_value (S754_zero true) (of_Z 90)); reflexivity|].
  split; [reflexivity|].
  apply (husk_loss_fraction_value (of_Z 100) (of_Z 90)); reflexivity.
Defined.

Lemma profiling_selection_list_witness :
  (List.length (trillado_rows Samples.headers_only) <= 1)%nat
  /\ Spec.profiling_selection (get_all_values Samples.headers_only WsTrillado) = []
  /\ (List.length (@nil string) < 6)%nat
  /\ Spec.profiling_selection
       (get_all_values Samples.gapped WsTrillado)
     = Spec.profiling_selection
         [ map (cell_text Samples.gapped) Samples.trillado_header;
           [ "a"; "b"; "c"; "d"; "e"; "a-c" ] ].
Proof.
  destruct (profiling_selection_list Samples.headers_only)
    as (r & _ & _ & _ & _ & S & H).
  split; [apply le_n|]. split; [apply H, le_n|].
  split; [do 6 constructor|].
  apply (S (map (cell_text Samples.gapped) Samples.trillado_header) [] []
           [ [ "a"; "b"; "c"; "d"; "e"; "a-c" ] ]).
  do 6 constructor.
Defined.

Lemma husk_loss_not_clamped_witness :
  Spec.no_empty_row (Spec.records (perfilado_rows Samples.headers_only))
  /\ SFltb (S754_finite true 7205759403792800 (-56)) (of_Z 0) = true
  /\ exists st' r row,
      Perfilado.perfilado_submit_form Samples.headers_only
        (Samples.profile "20240305FINHUI-B12-G1" (of_Z 100) (of_Z 110))
      = Ok (st', r)
      /\ perfilado_rows st' = (perfilado_rows Samples.headers_only ++ [row])%list
      /\ nth_error row 7 = Some (VNum (S754_finite true 7205759403792800 (-56))).
Proof.
  split; [constructor|]. split; [reflexivity|].
  apply (proj2 husk_loss_not_clamped Samples.headers_only
           (Samples.profile "20240305FINHUI-B12-G1" (of_Z 100) (of_Z 110))).
  - constructor.
  - intros [].
  - reflexivity.
Defined.

(** * Further properties of the handlers *)

(** ** The Hulling form's selection list *)

(** X1: GET /trillado on a Recebimiento worksheet whose rows after the header
    all have a first cell never raises; the list it offers is column 0 of the
    rows after the header, the pre-selected identifier is the first of them
    or the empty string, the date offered is today's, and no message or echo
    is shown.  Row 0 is never read: a worksheet with at most one row gives
    the empty list whatever that row holds. *)
Theorem hulling_selection_list (st : store) (today : string) :
  Spec.no_empty_row (Spec.records (recebimiento_rows st)) ->
  exists r,
    Trillado.trillado_form_page st today = Ok r
    /\ lists r
       = [ ("recibimiento_ids",
            Spec.column 0 (Spec.records (get_all_values st WsRecebimiento))) ]
    /\ Spec.column 0 (Spec.records (get_all_values st WsRecebimiento))
       = map (fun row => nth 0 row "") (Spec.records (get_all_values st WsRecebimiento))
    /\ dict_get (defaults r) "id_recibimiento"
       = Some (VStr (hd "" (Spec.column 0
                              (Spec.records (get_all_values st WsRecebimiento)))))
    /\ dict_get (defaults r) "fecha" = Some (VStr today)
    /\ msg r = None
    /\ last_submission r = None
    /\ ((List.length (recebimiento_rows st) <= 1)%nat ->
        lists r = [ ("recibimiento_ids", []) ]
        /\ dict_get (defaults r) "id_recibimiento" = Some (VStr "")).
Proof.
  intros H. unfold Trillado.trillado_form_page.
  rewrite (recibimiento_ids_readable st H). cbn [bind].
  eexists. split; [reflexivity|]. cbn [lists defaults msg last_submission].
  split; [reflexivity|].
  split.
  { rewrite column_map_filter. f_equal.
    apply forallb_filter_id, forallb_forall. intros row I.
    apply Nat.ltb_lt.
    unfold Spec.records, get_all_values in I. rewrite <- map_tl in I.
    apply in_map_iff in I. destruct I as (cells & <- & I).
    unfold Spec.no_empty_row, Spec.records in H.
    rewrite Forall_forall in H. specialize (H cells I).
    rewrite length_map. destruct cells; [contradiction | cbn; lia]. }
  split; [cbn; now destruct (Spec.column 0 _)|].
  split; [reflexivity|]. split; [reflexivity|]. split; [reflexivity|].
  intros L.
  assert (Spec.column 0 (Spec.records (get_all_values st WsRecebimiento)) = []) as ->.
  { unfold get_all_values, rows_of.
    destruct (recebimiento_rows st) as [|hdr [|row rows]]; cbn in *;
      [reflexivity.. | lia]. }
  split; reflexivity.
Qed.

Lemma hulling_selection_list_witness :
  Spec.no_empty_row (Spec.records (recebimiento_rows Samples.blank))
  /\ exists r,
      Trillado.trillado_form_page Samples.blank "2024-03-09" = Ok r
      /\ lists r = [ ("recibimiento_ids", []) ]
      /\ dict_get (defaults r) "id_recibimiento" = Some (VStr "").
Proof.
  split; [constructor|].
  destruct (hulling_selection_list Samples.blank "2024-03-09")
    as (r & E & _ & _ & _ & _ & _ & _ & B); [constructor|].
  exists r. split; [exact E | apply B, le_n].
Defined.

(** ** What the identifiers tell apart *)

Lemma without_dashes_idempotent (s : string) :
  Spec.without_dashes (Spec.without_dashes s) = Spec.without_dashes s.
Proof.
  induction s as [|c s IH]; cbn; [reflexivity|].
  destruct (Ascii.eqb c "-") eqn:E; [exact IH|].
  cbn. now rewrite E, IH.
Qed.

(** X2: the Receiving identifier does not tell apart what it leaves out.
    It is the identifier of the date without its dashes and of the first 3
    characters of the supplier and of the origin; so two suppliers, or two
    origins, that share their first 3 characters give the same identifier on
    the same date and lot. *)
Theorem receiving_id_normal_form (D S O L : string) :
  Recebimiento.id_recibimiento D S O L
  = Recebimiento.id_recibimiento (Spec.without_dashes D)
      (slice_to 3 S) (slice_to 3 O) L
  /\ (forall S' O',
        slice_to 3 S' = slice_to 3 S ->
        slice_to 3 O' = slice_to 3 O ->
        Recebimiento.id_recibimiento D S' O' L
        = Recebimiento.id_recibimiento D S O L).
Proof.
  unfold Recebimiento.id_recibimiento, str. split.
  - rewrite !replace_dash_without_dashes, without_dashes_idempotent.
    now rewrite !slice_to_idempotent.
  - intros S' O' HS HO. now rewrite HS, HO.
Qed.

Lemma receiving_id_normal_form_witness :
  slice_to 3 "Finca La Palma" = slice_to 3 "Finca El Roble"
  /\ slice_to 3 "Huíla" = slice_to 3 "Huí"
  /\ Recebimiento.id_recibimiento "2024-03-05" "Finca La Palma" "Huíla" "B12"
     = Recebimiento.id_recibimiento "2024-03-05" "Finca El Roble" "Huí" "B12".
Proof.
  split; [reflexivity|]. split; [reflexivity|].
  apply (proj2 (receiving_id_normal_form "2024-03-05" "Finca El Roble" "Huí" "B12"));
    reflexivity.
Defined.

Lemma has_dash_app (a b : string) :
  Chain.has_dash (a ++ b) = Chain.has_dash a || Chain.has_dash b.
Proof.
  induction a as [|c a IH]; cbn; [reflexivity|].
  now rewrite IH, orb_assoc.
Qed.

(** X3: the Hulling identifier tells apart every pair of a receiving
    identifier and a batch number, provided the batch numbers hold no
    hyphen: two submissions with hyphen-free batch numbers get the same
    identifier only when both the receiving identifier and the batch number
    are the same. *)
Theorem hulling_id_injective (a g a' g' : string) :
  Chain.has_dash g = false ->
  Chain.has_dash g' = false ->
  Trillado.id_trillado a g = Trillado.id_trillado a' g' ->
  a = a' /\ g = g'.
Proof.
  unfold Trillado.id_trillado. intros Hg Hg'.
  revert a'. induction a as [|c a IH]; intros [|c' a'] E; cbn in E.
  - injection E as E. now split.
  - injection E as Ec E. subst g.
    rewrite has_dash_app in Hg. cbn in Hg. rewrite orb_true_r in Hg.
    discriminate.
  - injection E as Ec E. subst g'.
    rewrite has_dash_app in Hg'. cbn in Hg'. rewrite orb_true_r in Hg'.
    discriminate.
  - injection E as Ec E. destruct (IH a' E) as [-> ->]. now subst.
Qed.

Lemma hulling_id_injective_witness :
  Chain.has_dash "G1" = false
  /\ Trillado.id_trillado "20240305FINHUI-B12" "G1" = "20240305FINHUI-B12-G1"
  /\ "20240305FINHUI-B12" = "20240305FINHUI-B12" /\ "G1" = "G1".
Proof.
  split; [reflexivity|]. split; [reflexivity|].
  apply (hulling_id_injective "20240305FINHUI-B12" "G1" "20240305FINHUI-B12" "G1");
    reflexivity.
Defined.

(** ** The check boxes of the Receiving form *)

Lemma yes_or_no_cases (x : option string) :
  (Recebimiento.yes_or_no x = "yes" /\ x = Some "yes")
  \/ (Recebimiento.yes_or_no x = "no" /\ x <> Some "yes").
Proof.
  destruct x as [s|]; [|right; split; [reflexivity | discriminate]].
  cbn. destruct (s =? "yes") eqn:E.
  - apply String.eqb_eq in E. subst. left. now split.
  - right. split; [reflexivity|]. intros [= ->]. discriminate.
Qed.

(** X4: whatever the three check boxes of the Receiving form are posted as,
    an accepted submission appends a row of 15 cells whose cells 11, 12 and
    13 are the strings "yes" or "no": "yes" exactly when the box was posted as
    "yes", and "no" for any other value and for a box left out.  The form is
    shown again with the same normalised values. *)
Theorem receiving_flags_stored (st : store) (f : Recebimiento.form) :
  Spec.no_empty_row (recebimiento_rows st) ->
  ~ In (Recebimiento.id_of f) (Spec.column 0 (get_all_values st WsRecebimiento)) ->
  exists st' r row a b c,
    Recebimiento.submit_form st f = Ok (st', r)
    /\ recebimiento_rows st' = (recebimiento_rows st ++ [row])%list
    /\ List.length row = 15%nat
    /\ nth_error row 11 = Some (VStr a)
    /\ nth_error row 12 = Some (VStr b)
    /\ nth_error row 13 = Some (VStr c)
    /\ dict_get (defaults r) "libre_contaminacion" = Some (VStr a)
    /\ dict_get (defaults r) "vehiculo_sin_contaminacion" = Some (VStr b)
    /\ dict_get (defaults r) "buen_estado" = Some (VStr c)
    /\ ((a = "yes" /\ Recebimiento.libre_contaminacion f = Some "yes")
        \/ (a = "no" /\ Recebimiento.libre_contaminacion f <> Some "yes"))
    /\ ((b = "yes" /\ Recebimiento.vehiculo_sin_contaminacion f = Some "yes")
        \/ (b = "no" /\ Recebimiento.vehiculo_sin_contaminacion f <> Some "yes"))
    /\ ((c = "yes" /\ Recebimiento.buen_estado f = Some "yes")
        \/ (c = "no" /\ Recebimiento.buen_estado f <> Some "yes")).
Proof.
  intros H N. rewrite (submit_form_run st f H). cbv zeta.
  apply contains_false in N. rewrite N.
  do 6 eexists. split; [reflexivity|]. split; [reflexivity|].
  split; [reflexivity|]. do 6 (split; [reflexivity|]).
  split; [apply yes_or_no_cases|]. split; apply yes_or_no_cases.
Qed.

Lemma receiving_flags_stored_witness :
  Spec.no_empty_row (recebimiento_rows Samples.headers_only)
  /\ exists st' r row,
      Recebimiento.submit_form Samples.headers_only Samples.roble = Ok (st', r)
      /\ recebimiento_rows st'
         = (recebimiento_rows Samples.headers_only ++ [row])%list
      /\ nth_error row 12 = Some (VStr "no").
Proof.
  split; [apply (headers_only_readable (Stage.Receiving Samples.roble))|].
  destruct (receiving_flags_stored Samples.headers_only Samples.roble)
    as (st' & r & row & a & b & c & E & R & _ & _ & B & _ & _ & _ & _ & _ & F & _).
  - apply (headers_only_readable (Stage.Receiving Samples.roble)).
  - intros [E|[]]; discriminate E.
  - exists st', r, row. split; [exact E|]. split; [exact R|].
    destruct F as [[_ F]|[-> _]]; [discriminate F | exact B].
Defined.

(** ** The handlers only ever append *)

Lemma handle_shape (st st' : store) (s : Stage.submission) (r : response) :
  Stage.handle st s = Ok (st', r) ->
  st' = st \/ st' = append_row st (Stage.target s) (Chain.appended s).
Proof.
  destruct s as [f|f|f]; cbn [Stage.handle Stage.target Chain.appended].
  - unfold Recebimiento.submit_form.
    change (get_sheet "Recebimiento") with (Ok WsRecebimiento). cbn [bind].
    destruct (Recebimiento.existing_ids st WsRecebimiento); [|discriminate].
    cbn [bind]. destruct (contains _ _); intros [= <- _]; auto.
  - unfold Trillado.trillado_submit_form.
    destruct (Trillado.recibimiento_ids st); [|discriminate]. cbn [bind].
    change (get_sheet "Trillado") with (Ok WsTrillado). cbn [bind].
    destruct (Trillado.existing_ids_trillado st WsTrillado); [|discriminate].
    cbn [bind]. destruct (contains _ _); intros [= <- _]; auto.
  - unfold Perfilado.perfilado_submit_form.
    rewrite perda_casca_total, id_trillado_options_total. cbn [bind].
    change (get_sheet "Perfilado") with (Ok WsPerfilado). cbn [bind].
    destruct (Perfilado.existing_ids_perfilado st WsPerfilado); [|discriminate].
    cbn [bind]. destruct (contains _ _); intros [= <- _]; auto.
Qed.

(** X5: a POST handler that answers, on any worksheets whatever, has at most
    appended its one prepared row at the end of its target worksheet: the
    rows that were there are all kept in place, no other worksheet is
    written, and the way numbers are displayed is untouched. *)
Theorem handlers_only_append
  (st st' : store) (s : Stage.submission) (r : response) :
  Stage.handle st s = Ok (st', r) ->
  number_text st' = number_text st
  /\ (forall ws, ws <> Stage.target s -> rows_of st' ws = rows_of st ws)
  /\ (rows_of st' (Stage.target s) = rows_of st (Stage.target s)
      \/ rows_of st' (Stage.target s)
         = (rows_of st (Stage.target s) ++ [Chain.appended s])%list).
Proof.
  intros E. destruct (handle_shape st st' s r E) as [->| ->].
  - split; [reflexivity|]. split; [reflexivity | now left].
  - split; [now destruct (Stage.target s)|].
    split; [intros ws; apply rows_of_append_row_other|].
    right. apply rows_of_append_row_same.
Qed.

Lemma handlers_only_append_witness :
  exists st' r,
    Stage.handle Samples.with_roble
      (Stage.Hulling (Samples.batch "20240305FINHUI-B12" "G1")) = Ok (st', r)
    /\ recebimiento_rows st' = recebimiento_rows Samples.with_roble
    /\ perfilado_rows st' = perfilado_rows Samples.with_roble.
Proof.
  do 2 eexists. split; [reflexivity|].
  split;
    [ apply (proj1 (proj2 (handlers_only_append Samples.with_roble _
               (Stage.Hulling (Samples.batch "20240305FINHUI-B12" "G1")) _
               eq_refl)) WsRecebimiento)
    | apply (proj1 (proj2 (handlers_only_append Samples.with_roble _
               (Stage.Hulling (Samples.batch "20240305FINHUI-B12" "G1")) _
               eq_refl)) WsPerfilado) ];
    discriminate.
Defined.

(** ** Submitting the same form again *)

Lemma handle_run (st : store) (s : Stage.submission) :
  Stage.readable st s ->
  exists r m,
    Stage.handle st s
    = Ok (if contains (Stage.derived_id s) (Stage.key_column st s)
          then st
          else append_row st (Stage.target s) (Chain.appended s), r)
    /\ msg r = Some m
    /\ startswith
         (if contains (Stage.derived_id s) (Stage.key_column st s)
          then "❌" else "✅") m = true.
Proof.
  intros H.
  destruct s as [f|f|f]; cbn [Stage.handle Stage.derived_id Stage.key_column
                              Stage.target Stage.readable Chain.appended] in *.
  - rewrite (submit_form_run st f H). cbv zeta.
    do 2 eexists. split; [reflexivity|]. cbn [msg]. split; [reflexivity|].
    now destruct (contains _ _).
  - destruct H as [Hup H].
    rewrite (trillado_submit_form_run st f Hup H). cbv zeta.
    do 2 eexists. split; [reflexivity|]. cbn [msg]. split; [reflexivity|].
    now destruct (contains _ _).
  - rewrite (perfilado_submit_form_run st f H). cbv zeta.
    do 2 eexists. split; [reflexivity|]. cbn [msg]. split; [reflexivity|].
    now destruct (contains _ _).
Qed.

Lemma last_column_app (a b : list (list string)) :
  Spec.last_column (a ++ b)%list = (Spec.last_column a ++ Spec.last_column b)%list.
Proof.
  apply flat_map_app.
Qed.

Lemma key_column_appended (st : store) (s : Stage.submission) :
  rows_of st (Stage.target s) <> [] ->
  Stage.key_column (append_row st (Stage.target s) (Chain.appended s)) s
  = (Stage.key_column st s ++ [Stage.derived_id s])%list.
Proof.
  intros NE.
  assert (get_all_values st (Stage.target s) <> []) as NE'
    by (unfold get_all_values; destruct (rows_of st (Stage.target s));
        [contradiction | discriminate]).
  destruct s as [f|f|f]; cbn [Stage.key_column Stage.target Stage.derived_id
                              Chain.appended] in *;
    rewrite get_all_values_append_row.
  - now rewrite column_app.
  - rewrite records_snoc.
    destruct (get_all_values st WsTrillado); [contradiction|].
    now rewrite last_column_app.
  - rewrite records_snoc.
    destruct (get_all_values st WsPerfilado); [contradiction|].
    now rewrite column_app.
Qed.

Lemma no_empty_row_records_snoc (t : table) (r : row) :
  Spec.no_empty_row (Spec.records t) -> r <> [] ->
  Spec.no_empty_row (Spec.records (t ++ [r])%list).
Proof.
  intros H Hr. rewrite records_snoc. destruct t as [|hdr t]; [constructor|].
  now apply no_empty_row_snoc.
Qed.

Lemma readable_appended (st : store) (s : Stage.submission) :
  Stage.readable st s ->
  Stage.readable (append_row st (Stage.target s) (Chain.appended s)) s.
Proof.
  destruct s as [f|f|f]; cbn [Stage.readable Stage.target Chain.appended append_row
                              recebimiento_rows trillado_rows perfilado_rows].
  - intros H. apply no_empty_row_snoc; [assumption | discriminate].
  - intros [Hup H]. split; [assumption|].
    apply no_empty_row_records_snoc; [assumption | discriminate].
  - intros H. apply no_empty_row_records_snoc; [assumption | discriminate].
Qed.

(** X6: at each of the three stages, on a target worksheet that has at least
    its header row and whose rows, the header included, all have the width
    of the stage's rows, a submission whose identifier is new is appended,
    and the very same submission sent again is refused and leaves the
    spreadsheet as it is: the key column gains the identifier once, and
    exactly one entry carries it. *)
Theorem resubmission_rejected_at_every_stage (st : store) (s : Stage.submission) :
  Stage.readable st s ->
  Chain.same_width st s ->
  rows_of st (Stage.target s) <> [] ->
  ~ In (Stage.derived_id s) (Stage.key_column st s) ->
  exists st1 r1 m1 r2 m2,
    Stage.handle st s = Ok (st1, r1)
    /\ msg r1 = Some m1 /\ startswith "✅" m1 = true
    /\ rows_of st1 (Stage.target s)
       = (rows_of st (Stage.target s) ++ [Chain.appended s])%list
    /\ Stage.key_column st1 s = (Stage.key_column st s ++ [Stage.derived_id s])%list
    /\ Stage.handle st1 s = Ok (st1, r2)
    /\ msg r2 = Some m2 /\ startswith "❌" m2 = true
    /\ Spec.occurrences (Stage.derived_id s) (Stage.key_column st1 s) = 1%nat.
Proof.
  intros H _ NE N.
  destruct (handle_run st s H) as (r1 & m1 & E1 & M1 & S1).
  pose proof N as N'. apply contains_false in N'. rewrite N' in E1, S1.
  pose proof (key_column_appended st s NE) as K.
  destruct (handle_run _ s (readable_appended st s H)) as (r2 & m2 & E2 & M2 & S2).
  rewrite K in E2, S2.
  assert (contains (Stage.derived_id s)
            (Stage.key_column st s ++ [Stage.derived_id s])%list = true) as D
    by (apply contains_In, in_or_app; right; left; reflexivity).
  rewrite D in E2, S2.
  exists (append_row st (Stage.target s) (Chain.appended s)), r1, m1, r2, m2.
  split; [exact E1|]. split; [exact M1|]. split; [exact S1|].
  split; [apply rows_of_append_row_same|]. split; [exact K|].
  split; [exact E2|]. split; [exact M2|]. split; [exact S2|].
  rewrite K, occurrences_snoc, (occurrences_absent _ _ N).
  destruct (string_dec _ _); [reflexivity | contradiction].
Qed.

Lemma resubmission_rejected_at_every_stage_witness :
  Stage.readable Samples.headers_only
    (Stage.Hulling (Samples.batch "20240305FINHUI-B12" "G1"))
  /\ Chain.same_width Samples.headers_only
       (Stage.Hulling (Samples.batch "20240305FINHUI-B12" "G1"))
  /\ exists st1 r1 r2,
      Trillado.trillado_submit_form Samples.headers_only
        (Samples.batch "20240305FINHUI-B12" "G1") = Ok (st1, r1)
      /\ Trillado.trillado_submit_form st1
           (Samples.batch "20240305FINHUI-B12" "G1") = Ok (st1, r2)
      /\ List.length (trillado_rows st1) = 2%nat.
Proof.
  split; [apply headers_only_readable|].
  split; [repeat constructor|].
  destruct (resubmission_rejected_at_every_stage Samples.headers_only
              (Stage.Hulling (Samples.batch "20240305FINHUI-B12" "G1")))
    as (st1 & r1 & m1 & r2 & m2 & E1 & _ & _ & R & _ & E2 & _).
  - apply headers_only_readable.
  - repeat constructor.
  - discriminate.
  - intros [].
  - exists st1, r1, r2. split; [exact E1|]. split; [exact E2|].
    cbn [Stage.target rows_of] in R. now rewrite R.
Defined.

(** ** A target worksheet without a header row *)

Lemma key_column_headerless (st : store) (s : Stage.submission) :
  Stage.target s <> WsRecebimiento ->
  (List.length (rows_of st (Stage.target s)) <= 1)%nat ->
  Stage.key_column st s = [].
Proof.
  destruct s as [f|f|f]; cbn [Stage.target Stage.key_column]; intros T L;
    [contradiction| |];
    unfold get_all_values;
    destruct (rows_of st _) as [|hdr [|row rows]]; cbn in *;
    reflexivity || lia.
Qed.

(** X7: the Hulling and Profiling checks never read row 0, so on a target
    worksheet without any row the same submission is accepted twice: the
    first row takes the header's place, the second is appended after it, and
    only the third attempt is refused. *)
Theorem headerless_worksheet_accepts_twice (st : store) (s : Stage.submission) :
  Stage.target s <> WsRecebimiento ->
  rows_of st (Stage.target s) = [] ->
  Stage.readable st s ->
  exists st1 r1 st2 r2 r3 m3,
    Stage.handle st s = Ok (st1, r1)
    /\ Stage.handle st1 s = Ok (st2, r2)
    /\ rows_of st2 (Stage.target s) = [Chain.appended s; Chain.appended s]
    /\ Stage.handle st2 s = Ok (st2, r3)
    /\ msg r3 = Some m3 /\ startswith "❌" m3 = true.
Proof.
  intros T E H.
  set (st1 := append_row st (Stage.target s) (Chain.appended s)).
  set (st2 := append_row st1 (Stage.target s) (Chain.appended s)).
  assert (rows_of st1 (Stage.target s) = [Chain.appended s]) as R1
    by (unfold st1; now rewrite rows_of_append_row_same, E).
  assert (rows_of st2 (Stage.target s) = [Chain.appended s; Chain.appended s]) as R2
    by (unfold st2; now rewrite rows_of_append_row_same, R1).
  assert (Stage.readable st1 s) as H1 by now apply readable_appended.
  assert (Stage.readable st2 s) as H2 by now apply readable_appended.
  assert (Stage.key_column st s = []) as K0
    by (apply key_column_headerless; [assumption | rewrite E; cbn; lia]).
  assert (Stage.key_column st1 s = []) as K1
    by (apply key_column_headerless; [assumption | rewrite R1; cbn; lia]).
  assert (Stage.key_column st2 s = [Stage.derived_id s]) as K2.
  { unfold st2. rewrite key_column_appended by (rewrite R1; discriminate).
    now rewrite K1. }
  destruct (handle_run st s H) as (r1 & m1 & E1 & _).
  destruct (handle_run st1 s H1) as (r2 & m2 & E2 & _).
  destruct (handle_run st2 s H2) as (r3 & m3 & E3 & M3 & S3).
  rewrite K0 in E1. rewrite K1 in E2. rewrite K2 in E3, S3.
  cbn [contains existsb] in E1, E2, E3, S3.
  rewrite String.eqb_refl in E3, S3. cbn [orb] in E3, S3.
  exists st1, r1, st2, r2, r3, m3.
  split; [exact E1|]. split; [exact E2|]. split; [exact R2|].
  split; [exact E3|]. split; [exact M3 | exact S3].
Qed.

Lemma headerless_worksheet_accepts_twice_witness :
  Stage.readable (Samples.sheets [ Samples.recebimiento_header ] [] [])
    (Stage.Profiling (Samples.profile "20240305FINHUI-B12-G1" (of_Z 100) (of_Z 90)))
  /\ exists st1 r1 st2 r2,
      Perfilado.perfilado_submit_form
        (Samples.sheets [ Samples.recebimiento_header ] [] [])
        (Samples.profile "20240305FINHUI-B12-G1" (of_Z 100) (of_Z 90)) = Ok (st1, r1)
      /\ Perfilado.perfilado_submit_form st1
           (Samples.profile "20240305FINHUI-B12-G1" (of_Z 100) (of_Z 90))
         = Ok (st2, r2)
      /\ List.length (perfilado_rows st2) = 2%nat.
Proof.
  split; [constructor|].
  destruct (headerless_worksheet_accepts_twice
              (Samples.sheets [ Samples.recebimiento_header ] [] [])
              (Stage.Profiling
                 (Samples.profile "20240305FINHUI-B12-G1" (of_Z 100) (of_Z 90))))
    as (st1 & r1 & st2 & r2 & _ & _ & E1 & E2 & R & _).
  - discriminate.
  - reflexivity.
  - constructor.
  - exists st1, r1, st2, r2. split; [exact E1|]. split; [exact E2|].
    cbn [Stage.target rows_of] in R. now rewrite R.
Defined.

(** ** From one stage's append to the next stage's list *)

Lemma no_empty_row_records (t : table) :
  Spec.no_empty_row t -> Spec.no_empty_row (Spec.records t).
Proof.
  intros H. destruct t as [|hdr t]; [constructor|]. now inversion H.
Qed.

(** X8: a lot accepted by POST /recebimiento is the last identifier the
    Hulling form offers afterwards, after those it offered before; except on
    a worksheet that had no row at all, where the new row takes the header's
    place and the form still offers nothing. *)
Theorem received_lot_is_offered_for_hulling
  (st : store) (f : Recebimiento.form) (today : string) :
  Spec.no_empty_row (recebimiento_rows st) ->
  ~ In (Recebimiento.id_of f) (Spec.column 0 (get_all_values st WsRecebimiento)) ->
  exists st' r page,
    Recebimiento.submit_form st f = Ok (st', r)
    /\ Trillado.trillado_form_page st' today = Ok page
    /\ lists page
       = [ ("recibimiento_ids",
            match recebimiento_rows st with
            | [] => []
            | _ :: _ =>
                (Spec.column 0 (Spec.records (get_all_values st WsRecebimiento))
                   ++ [Recebimiento.id_of f])%list
            end) ].
Proof.
  intros H N. rewrite (submit_form_run st f H). cbv zeta.
  apply contains_false in N. rewrite N.
  set (st' := append_row st WsRecebimiento (Recebimiento.row_of f)).
  assert (Spec.no_empty_row (Spec.records (recebimiento_rows st'))) as H'
    by (apply no_empty_row_records_snoc;
        [now apply no_empty_row_records | discriminate]).
  exists st'. do 2 eexists. split; [reflexivity|].
  unfold Trillado.trillado_form_page.
  rewrite (recibimiento_ids_readable st' H'). cbn [bind].
  split; [reflexivity|].
  cbn [lists]. do 2 f_equal.
  unfold st'. rewrite get_all_values_append_row, records_snoc.
  unfold get_all_values, rows_of.
  destruct (recebimiento_rows st); [reflexivity|].
  cbn [map]. now rewrite column_app.
Qed.

Lemma received_lot_is_offered_for_hulling_witness :
  Spec.no_empty_row (recebimiento_rows Samples.headers_only)
  /\ exists st' r page,
      Recebimiento.submit_form Samples.headers_only Samples.roble = Ok (st', r)
      /\ Trillado.trillado_form_page st' "2024-03-09" = Ok page
      /\ lists page = [ ("recibimiento_ids", [ "20240305FINHUI-B12" ]) ].
Proof.
  split; [apply (headers_only_readable (Stage.Receiving Samples.roble))|].
  apply (received_lot_is_offered_for_hulling Samples.headers_only Samples.roble).
  - apply (headers_only_readable (Stage.Receiving Samples.roble)).
  - intros [E|[]]; discriminate E.
Defined.

Lemma profiling_selection_column (rows : list (list string)) :
  Spec.profiling_selection rows = Spec.column 5 (Spec.records rows).
Proof.
  unfold Spec.profiling_selection. now rewrite column_map_filter.
Qed.

(** X9: on a Trillado worksheet whose rows, the header included, all have 6
    cells, a batch accepted by POST /trillado is the last identifier the
    Profiling form offers afterwards, after those it offered before; except
    on a Trillado worksheet that had no row at all, where the new row takes
    the header's place and is not offered. *)
Theorem hulled_batch_is_offered_for_profiling (st : store) (f : Trillado.form) :
  Chain.six_cells (trillado_rows st) ->
  Spec.no_empty_row (Spec.records (recebimiento_rows st)) ->
  ~ In (Trillado.id_of f) (Stage.key_column st (Stage.Hulling f)) ->
  exists st' r page,
    Trillado.trillado_submit_form st f = Ok (st', r)
    /\ Perfilado.perfilado_form_page st' = Ok page
    /\ lists page
       = [ ("id_trillado_options",
            match trillado_rows st with
            | [] => []
            | _ :: _ =>
                (Spec.profiling_selection (get_all_values st WsTrillado)
                   ++ [Trillado.id_of f])%list
            end) ].
Proof.
  intros W Hup N. cbn [Stage.key_column] in N.
  assert (Spec.no_empty_row (Spec.records (trillado_rows st))) as H.
  { apply no_empty_row_records. revert W. apply Forall_impl.
    intros [|c r] Hr; [discriminate Hr | discriminate]. }
  rewrite (trillado_submit_form_run st f Hup H). cbv zeta.
  apply contains_false in N. rewrite N.
  do 3 eexists. split; [reflexivity|].
  unfold Perfilado.perfilado_form_page.
  rewrite id_trillado_options_total. cbn [bind].
  split; [reflexivity|].
  cbn [lists]. do 2 f_equal.
  rewrite get_all_values_append_row, records_snoc, profiling_selection_column.
  unfold get_all_values, rows_of.
  destruct (trillado_rows st); [reflexivity|].
  cbn [map]. now rewrite column_app.
Qed.

Lemma hulled_batch_is_offered_for_profiling_witness :
  Chain.six_cells (trillado_rows Samples.with_roble)
  /\ Spec.no_empty_row (Spec.records (recebimiento_rows Samples.with_roble))
  /\ exists st' r page,
      Trillado.trillado_submit_form Samples.with_roble
        (Samples.batch "20240305FINHUI-B12" "G1") = Ok (st', r)
      /\ Perfilado.perfilado_form_page st' = Ok page
      /\ lists page = [ ("id_trillado_options", [ "20240305FINHUI-B12-G1" ]) ].
Proof.
  split; [repeat constructor|].
  split; [repeat constructor; discriminate|].
  apply (hulled_batch_is_offered_for_profiling Samples.with_roble
           (Samples.batch "20240305FINHUI-B12" "G1")).
  - repeat constructor.
  - repeat constructor; discriminate.
  - intros [].
Defined.

(** ** The two readings of the Trillado identifier column *)

Lemma last_column_six (rows : list (list string)) :
  Forall (fun r => List.length r = 6%nat) rows ->
  Spec.last_column rows = Spec.column 5 rows.
Proof.
  induction 1 as [|r rows Hr _ IH]; [reflexivity|].
  unfold Spec.last_column, Spec.column in *. cbn [flat_map]. rewrite IH.
  destruct r as [|a [|b [|c [|d [|e [|g [|h r]]]]]]]; try discriminate Hr.
  reflexivity.
Qed.

Lemma six_cells_text (st : store) (t : table) :
  Chain.six_cells t ->
  Forall (fun r => List.length r = 6%nat) (map (map (cell_text st)) t).
Proof.
  intros H. apply Forall_map. revert H. apply Forall_impl.
  intros r Hr. now rewrite length_map.
Qed.

Lemma six_cells_no_empty_row (t : table) : Chain.six_cells t -> Spec.no_empty_row t.
Proof.
  apply Forall_impl. intros [|c r] Hr; [discriminate Hr | discriminate].
Qed.

Lemma six_cells_records (t : table) :
  Chain.six_cells t -> Chain.six_cells (Spec.records t).
Proof.
  intros H. destruct t as [|hdr t]; [constructor|]. now inversion H.
Qed.

Lemma six_cells_guard_is_list (st : store) :
  Chain.six_cells (Spec.records (trillado_rows st)) ->
  Trillado.existing_ids_trillado st WsTrillado = Perfilado.id_trillado_options st.
Proof.
  intros H.
  rewrite (existing_ids_trillado_readable st (six_cells_no_empty_row _ H)).
  rewrite id_trillado_options_total. f_equal.
  apply last_column_six.
  unfold Spec.records, get_all_values, rows_of in *. rewrite <- map_tl.
  now apply six_cells_text.
Qed.

(** X10: the Hulling check reads the last cell of a row and the Profiling
    form reads the cell at index 5.  On a Trillado worksheet whose rows, the
    header included, all have 6 cells the two agree, so the identifiers
    guarded against duplication are exactly the identifiers offered for
    profiling; and POST /trillado keeps the worksheet that way, since it
    appends rows of 6 cells. *)
Theorem hulling_guard_reads_offered_ids (st : store) (f : Trillado.form) :
  Chain.six_cells (trillado_rows st) ->
  Spec.no_empty_row (Spec.records (recebimiento_rows st)) ->
  exists st' r,
    Trillado.trillado_submit_form st f = Ok (st', r)
    /\ Trillado.existing_ids_trillado st WsTrillado = Perfilado.id_trillado_options st
    /\ Chain.six_cells (trillado_rows st')
    /\ Trillado.existing_ids_trillado st' WsTrillado
       = Perfilado.id_trillado_options st'.
Proof.
  intros W Hup.
  pose proof (six_cells_records _ W) as H.
  rewrite (trillado_submit_form_run st f Hup (six_cells_no_empty_row _ H)).
  cbv zeta.
  assert (Chain.six_cells
            (trillado_rows (append_row st WsTrillado (Trillado.row_of f))))
    as W'.
  { cbn [append_row trillado_rows].
    apply Forall_app. split; [exact W | repeat constructor]. }
  destruct (contains _ _); do 2 eexists; (split; [reflexivity|]);
    (split; [now apply six_cells_guard_is_list|]).
  - split; [exact W | now apply six_cells_guard_is_list].
  - split; [exact W' | now apply six_cells_guard_is_list, six_cells_records].
Qed.

Lemma hulling_guard_reads_offered_ids_witness :
  Chain.six_cells (trillado_rows Samples.headers_only)
  /\ exists st' r,
      Trillado.trillado_submit_form Samples.headers_only
        (Samples.batch "20240305FINHUI-B12" "G1") = Ok (st', r)
      /\ Trillado.existing_ids_trillado st' WsTrillado
         = Perfilado.id_trillado_options st'.
Proof.
  split; [repeat constructor|].
  destruct (hulling_guard_reads_offered_ids Samples.headers_only
              (Samples.batch "20240305FINHUI-B12" "G1"))
    as (st' & r & E & _ & _ & G); [repeat constructor | constructor |].
  exists st', r. split; [exact E | exact G].
Defined.

(** ** A form's own submissions leave its selection list alone *)

(** X11: POST /trillado and POST /perfilado answer with the very list their
    GET page offers, and the page offers the same list after the submission
    as before it, whether the submission was appended or refused: neither
    handler writes to the worksheet its list is read from. *)
Theorem own_submission_keeps_selection_list :
  (forall st f st' r today,
      Trillado.trillado_submit_form st f = Ok (st', r) ->
      exists page page',
        Trillado.trillado_form_page st today = Ok page
        /\ Trillado.trillado_form_page st' today = Ok page'
        /\ lists page = lists r
        /\ page' = page)
  /\ (forall st f st' r,
        Perfilado.perfilado_submit_form st f = Ok (st', r) ->
        exists page page',
          Perfilado.perfilado_form_page st = Ok page
          /\ Perfilado.perfilado_form_page st' = Ok page'
          /\ lists page = lists r
          /\ page' = page).
Proof.
  split.
  - intros st f st' r today. unfold Trillado.trillado_submit_form.
    destruct (Trillado.recibimiento_ids st) as [ids|e] eqn:U; [|discriminate].
    cbn [bind]. change (get_sheet "Trillado") with (Ok WsTrillado). cbn [bind].
    destruct (Trillado.existing_ids_trillado st WsTrillado); [|discriminate].
    cbn [bind].
    destruct (contains _ _); intros [= <- <-]; unfold Trillado.trillado_form_page;
      try change (Trillado.recibimiento_ids (Build_store _ _ _ _))
        with (Trillado.recibimiento_ids st);
      rewrite U; cbn [bind]; do 2 eexists;
      (split; [reflexivity|]); (split; [reflexivity|]); split; reflexivity.
  - intros st f st' r. unfold Perfilado.perfilado_submit_form.
    rewrite perda_casca_total. cbn [bind].
    destruct (Perfilado.id_trillado_options st) as [ids|e] eqn:U; [|discriminate].
    cbn [bind]. change (get_sheet "Perfilado") with (Ok WsPerfilado). cbn [bind].
    destruct (Perfilado.existing_ids_perfilado st WsPerfilado); [|discriminate].
    cbn [bind].
    destruct (contains _ _); intros [= <- <-]; unfold Perfilado.perfilado_form_page;
      try change (Perfilado.id_trillado_options (Build_store _ _ _ _))
        with (Perfilado.id_trillado_options st);
      rewrite U; cbn [bind]; do 2 eexists;
      (split; [reflexivity|]); (split; [reflexivity|]); split; reflexivity.
Qed.

Lemma own_submission_keeps_selection_list_witness :
  exists st' r page,
    Trillado.trillado_submit_form Samples.with_roble
      (Samples.batch "20240305FINHUI-B12" "G1") = Ok (st', r)
    /\ Trillado.trillado_form_page st' "2024-03-09" = Ok page
    /\ lists page = lists r.
Proof.
  do 2 eexists.
  destruct (proj1 own_submission_keeps_selection_list Samples.with_roble
              (Samples.batch "20240305FINHUI-B12" "G1") _ _ "2024-03-09" eq_refl)
    as (page & page' & _ & E' & L & P).
  exists page'. split; [reflexivity|]. split; [exact E'|]. now rewrite P.
Defined.

(** ** The husk loss at the ends of the float range *)

(** X12: the husk loss at samples that are zero, infinite or not a number.
    A hulled sample of 0 against a
    parchment sample that is finite and not 0, or infinite, gives a loss of
    exactly 1; so does a finite hulled sample against an infinite parchment
    sample; a NaN in either sample gives NaN (unless the parchment sample is
    0, which gives 0), and so do two infinite samples.  None of them raises. *)
Theorem husk_loss_edge_samples :
  (forall s sp m e,
      Perfilado.perda_casca (S754_finite sp m e) (S754_zero s) = Ok (of_Z 1))
  /\ (forall s sp,
        Perfilado.perda_casca (S754_infinity sp) (S754_zero s) = Ok (of_Z 1))
  /\ (forall sp sh m e,
        Perfilado.perda_casca (S754_infinity sp) (S754_finite sh m e) = Ok (of_Z 1))
  /\ (forall sp sh,
        Perfilado.perda_casca (S754_infinity sp) (S754_infinity sh) = Ok S754_nan)
  /\ (forall h, Perfilado.perda_casca S754_nan h = Ok S754_nan)
  /\ (forall p,
        Perfilado.perda_casca p S754_nan
        = Ok (if is_zero p then of_Z 0 else S754_nan)).
Proof.
  split; [intros s [|] m e; reflexivity|].
  split; [intros s [|]; reflexivity|].
  split; [intros [|] sh m e; reflexivity|].
  split; [intros [|] sh; reflexivity|].
  split; [intros [s|s| |s m e]; reflexivity|].
  intros [[|]|[|]| |[|] m e]; reflexivity.
Qed.

(** ** The form is shown again with what was posted *)

Lemma dict_get_app (a b : dict) (k : string) :
  dict_get (a ++ b)%list k
  = match dict_get a k with
    | Some v => Some v
    | None => dict_get b k
    end.
Proof.
  induction a as [|[k' v'] a IH]; [reflexivity|].
  cbn [dict_get app]. now destruct (k' =? k).
Qed.

Lemma handle_echo (st st' : store) (s : Stage.submission) (r : response) :
  Stage.handle st s = Ok (st', r) ->
  defaults r
  = match s with
    | Stage.Receiving f => Recebimiento.fields_of f
    | Stage.Hulling f => Trillado.fields_of f
    | Stage.Profiling f => Perfilado.fields_of f
    end
  /\ last_submission r
     = Some match s with
            | Stage.Receiving f =>
                ("id_recibimiento", VStr (Recebimiento.id_of f))
                  :: Recebimiento.fields_of f
            | Stage.Hulling f =>
                (Trillado.fields_of f ++ [ ("id_trillado", VStr (Trillado.id_of f)) ])%list
            | Stage.Profiling f => Perfilado.fields_of f
            end.
Proof.
  destruct s as [f|f|f]; cbn [Stage.handle].
  - unfold Recebimiento.submit_form.
    change (get_sheet "Recebimiento") with (Ok WsRecebimiento). cbn [bind].
    destruct (Recebimiento.existing_ids st WsRecebimiento); [|discriminate].
    cbn [bind]. destruct (contains _ _); intros [= _ <-]; split; reflexivity.
  - unfold Trillado.trillado_submit_form.
    destruct (Trillado.recibimiento_ids st); [|discriminate]. cbn [bind].
    change (get_sheet "Trillado") with (Ok WsTrillado). cbn [bind].
    destruct (Trillado.existing_ids_trillado st WsTrillado); [|discriminate].
    cbn [bind]. destruct (contains _ _); intros [= _ <-]; split; reflexivity.
  - unfold Perfilado.perfilado_submit_form.
    rewrite perda_casca_total, id_trillado_options_total. cbn [bind].
    change (get_sheet "Perfilado") with (Ok WsPerfilado). cbn [bind].
    destruct (Perfilado.existing_ids_perfilado st WsPerfilado); [|discriminate].
    cbn [bind]. destruct (contains _ _); intros [= _ <-]; split; reflexivity.
Qed.

(** X13: whenever a POST handler answers, accepted or refused, every field
    the form is shown again with holds the value echoed for it in the last
    submission, and the last submission holds the derived identifier under
    the stage's identifier key. *)
Theorem posted_values_shown_again
  (st st' : store) (s : Stage.submission) (r : response) :
  Stage.handle st s = Ok (st', r) ->
  exists d,
    last_submission r = Some d
    /\ (forall k v, dict_get (defaults r) k = Some v -> dict_get d k = Some v)
    /\ dict_get d (Chain.id_field s) = Some (VStr (Stage.derived_id s)).
Proof.
  intros E. destruct (handle_echo st st' s r E) as [D L].
  rewrite D, L. eexists. split; [reflexivity|].
  destruct s as [f|f|f]; cbn [Chain.id_field Stage.derived_id].
  - split; [|reflexivity].
    intros k v G. cbn [dict_get].
    destruct ("id_recibimiento" =? k) eqn:K; [|exact G].
    apply String.eqb_eq in K. subst k. discriminate G.
  - split.
    + intros k v G. now rewrite dict_get_app, G.
    + now rewrite dict_get_app.
  - split; [auto | reflexivity].
Qed.

Lemma posted_values_shown_again_witness :
  exists st' r d,
    Stage.handle Samples.with_roble (Stage.Receiving Samples.roble) = Ok (st', r)
    /\ last_submission r = Some d
    /\ dict_get d "id_recibimiento" = Some (VStr "20240305FINHUI-B12").
Proof.
  do 2 eexists.
  destruct (posted_values_shown_again Samples.with_roble _
              (Stage.Receiving Samples.roble) _ eq_refl) as (d & L & _ & I).
  exists d. split; [reflexivity|]. split; [exact L | exact I].
Defined.
